(** * The E3 Achievement order server (e3-server-backend.js)

    A shallow embedding of the order intake endpoint
    [app.post('/api/submit-order', limiter, async (req, res) => ...)]:
    the request payload as the JavaScript value that [express.json()]
    hands to the handler, the validation, the order number, the four
    rendered message bodies with their two envelopes, the dispatch
    through [Promise.all] and the response. *)

From Stdlib Require Import ZArith String Ascii Bool Lia.
From stdpp Require Import gmap strings list pretty.


(** ** Exceptions and the result of an evaluation *)

(** What a JavaScript evaluation may throw here: a [TypeError] of the
    language itself (reading a property of [undefined], calling what is
    not a function, an object with no primitive value), the
    [RangeError] of the engine when the call stack is exhausted, or the
    reason the mail transport rejects a submission with. *)
Inductive exn :=
| TypeError
| RangeError
| SendError (reason : string).

Inductive result (A : Type) :=
| Ok (a : A)
| Throw (e : exn).
Arguments Ok {A} a.
Arguments Throw {A} e.

#[global] Instance result_ret : MRet result := fun A a => Ok a.
#[global] Instance result_bind : MBind result :=
  fun A B f m => match m with Ok a => f a | Throw e => Throw e end.
#[global] Instance result_fmap : FMap result :=
  fun A B f m => match m with Ok a => Ok (f a) | Throw e => Throw e end.

(** ** The JavaScript engine *)

(** Primitive values, as [ToPrimitive] returns them. *)
Inductive primitive (number : Type) :=
| PUndefined
| PNull
| PBool (b : bool)
| PNum (n : number)
| PStr (s : string).
Arguments PUndefined {number}.
Arguments PNull {number}.
Arguments PBool {number} b.
Arguments PNum {number} n.
Arguments PStr {number} s.

(** The built-ins whose results depend on IEEE doubles, on the locale
    and on the time zone of the process are an interface of the engine:
    the handler only passes their results on. *)
Class Engine := {
  (** the Number type: the doubles a JSON payload can denote *)
  number : Type;
  (** [x === 0]: [x] is [+0] or [-0] *)
  number_is_zero : number -> bool;
  (** [String(x)], what a template literal prints for a number *)
  number_to_string : number -> string;
  (** [x.toFixed(2)] *)
  number_toFixed2 : number -> string;
  (** [new Date(p).toLocaleString()] for a primitive [p]; an
      unparsable argument gives the text of an invalid date *)
  Date_toLocaleString : primitive number -> string;
  (** how many arrays, one inside the other, [Array.prototype.join]
      enters before the call stack of the engine is exhausted; every
      conversion of the handler starts a few frames above the same
      depth of the stack, and is given the same room *)
  join_depth : nat;
}.

Section JavaScript.
Context `{E : Engine}.

(** A request value: what [JSON.parse] builds, and [undefined] for a
    property that is not there. An object is a finite map from its own
    property names to their values. *)
#[warning="-register-all"] Inductive value :=
| VUndefined
| VNull
| VBool (b : bool)
| VNum (n : number)
| VStr (s : string)
| VArr (elems : list value)
| VObj (props : gmap string value).

(** [!!v]. A parsed JSON number is never NaN, so a number is falsy
    exactly when it is a zero. *)
Definition truthy (v : value) : bool :=
  match v with
  | VUndefined | VNull => false
  | VBool b => b
  | VNum n => negb (number_is_zero n)
  | VStr s => negb (String.eqb s "")
  | VArr _ | VObj _ => true
  end.

(** [v.k] for the data properties the handler reads ([customer],
    [items], [total], [orderDate], [name], [email], [studentName],
    [phone], [address], [specialInstructions], [quantity], [price],
    [subtotal]): none of them is on a built-in prototype, so only an
    object that owns the property has it. Reading a property of
    [undefined] or [null] throws. *)
Definition get (v : value) (k : string) : result value :=
  match v with
  | VUndefined | VNull => Throw TypeError
  | VObj props => Ok (default VUndefined (props !! k))
  | VBool _ | VNum _ | VStr _ | VArr _ => Ok VUndefined
  end.

(** [v.length === 0]: an array or a string has its length, an object
    has it when it owns a property of that name. *)
Definition length_is_zero (v : value) : result bool :=
  match v with
  | VUndefined | VNull => Throw TypeError
  | VArr elems => Ok (Nat.eqb (length elems) 0)
  | VStr s => Ok (String.eqb s "")
  | VObj props =>
      Ok (match props !! "length" with
          | Some (VNum n) => number_is_zero n
          | _ => false
          end)
  | VBool _ | VNum _ => Ok false
  end.

(** [Array.prototype.join] with a comma, given the conversion of one
    element; the elements are converted from left to right. *)
Definition join_elements (element : value -> result string)
    : list value -> result string :=
  fix join (l : list value) : result string :=
    match l with
    | [] => Ok EmptyString
    | [x] => element x
    | x :: rest => s ← element x; r ← join rest; mret (s +:+ "," +:+ r)
    end.

(** [ToString(v)] with room on the call stack for [room] nested calls
    of [Array.prototype.join]. An array joins its elements with commas,
    [null] and [undefined] elements printing as nothing; the conversion
    of an element that is itself an array is a call inside the call, and
    an array met when no room is left throws the [RangeError] of the
    exhausted stack. A plain object prints through
    [Object.prototype.toString]; when it owns a property [toString]
    (which, coming from JSON, is no function) neither [toString] nor
    the inherited [valueOf] yields a primitive and the conversion
    throws. *)
Fixpoint ToString_within (v : value) (room : nat) : result string :=
  match v with
  | VUndefined => Ok "undefined"
  | VNull => Ok "null"
  | VBool true => Ok "true"
  | VBool false => Ok "false"
  | VNum n => Ok (number_to_string n)
  | VStr s => Ok s
  | VArr elems =>
      match room with
      | 0 => Throw RangeError
      | S room' =>
          join_elements
            (fun x => match x with
                      | VUndefined | VNull => Ok EmptyString
                      | _ => ToString_within x room'
                      end)
            elems
      end
  | VObj props =>
      match props !! "toString" with
      | Some _ => Throw TypeError
      | None => Ok "[object Object]"
      end
  end.

(** [ToString(v)], as a template literal applies it to [${v}]. *)
Definition ToString (v : value) : result string :=
  ToString_within v join_depth.

(** [ToPrimitive(v)] with no preferred type, as [new Date(v)] applies
    it: [valueOf] of an array or of an object returns the object
    itself, so both end in their [toString]. *)
Definition ToPrimitive (v : value) : result (primitive number) :=
  match v with
  | VUndefined => Ok PUndefined
  | VNull => Ok PNull
  | VBool b => Ok (PBool b)
  | VNum n => Ok (PNum n)
  | VStr s => Ok (PStr s)
  | VArr _ | VObj _ => PStr <$> ToString v
  end.

(** [new Date(v).toLocaleString()] *)
Definition new_Date_toLocaleString (v : value) : result string :=
  Date_toLocaleString <$> ToPrimitive v.

(** [v.toFixed(2)]: only a number has the method. *)
Definition toFixed2 (v : value) : result string :=
  match v with
  | VNum n => Ok (number_toFixed2 n)
  | _ => Throw TypeError
  end.

(** [v.map(f)]: only an array has the method; the callback runs on the
    elements from left to right and the first exception ends the
    call. *)
Definition array_map {B} (f : value -> result B) (v : value) : result (list B) :=
  match v with
  | VArr elems => mapM f elems
  | _ => Throw TypeError
  end.

(** [a || 'marker'] inside a template literal *)
Definition or_else (v : value) (marker : string) : result string :=
  if truthy v then ToString v else Ok marker.

End JavaScript.

(** ** Strings *)

(** The double quote and the line feed, which the literals below are
    built with. *)
Definition dq : string := String (ascii_of_nat 34) EmptyString.
Definition nl : string := String (ascii_of_nat 10) EmptyString.

(** A template literal: its literal parts and the texts of its
    substitutions, in order. *)
Fixpoint template (parts : list string) : string :=
  match parts with
  | [] => EmptyString
  | p :: rest => p +:+ template rest
  end.

(** [l.join(sep)] on an array of strings *)
Definition join (sep : string) (l : list string) : string := String.concat sep l.

(** [s.substr(start, len)] for a start inside the string *)
Definition substr (start len : nat) (s : string) : string := substring start len s.

(** [s.toUpperCase()] on ASCII text: the letters a to z go to A to Z. *)
Definition ascii_toUpperCase (c : ascii) : ascii :=
  let n := nat_of_ascii c in
  if (97 <=? n)%nat && (n <=? 122)%nat then ascii_of_nat (n - 32) else c.

Fixpoint toUpperCase (s : string) : string :=
  match s with
  | EmptyString => EmptyString
  | String c rest => String (ascii_toUpperCase c) (toUpperCase rest)
  end.

(** [sub] occurs in [s]; the decision procedure tries every position. *)
Definition Infix (sub s : string) : Prop :=
  exists before after, s = before +:+ sub +:+ after.

Fixpoint includes (s sub : string) : bool :=
  String.prefix sub s ||
  match s with
  | EmptyString => false
  | String _ rest => includes rest sub
  end.

(** ** The order number (line 50) *)

(** A value of [Math.random()] is a double in the interval from 0
    (included) to 1 (excluded). It is given here by the digits that
    [toString(36)] prints after the point, each below 36: the empty
    list is 0, [[18]] is one half (18/36). *)
Definition random_value := list nat.

Definition base36 (ds : random_value) : Prop := Forall (fun d => d < 36) ds.

Definition digit36 (d : nat) : ascii :=
  match String.get d "0123456789abcdefghijklmnopqrstuvwxyz" with
  | Some c => c
  | None => "?"%char
  end.

(** [r.toString(36)] for [r] in the unit interval *)
Definition Number_toString36 (r : random_value) : string :=
  match r with
  | [] => "0"
  | _ => "0." +:+ string_of_list_ascii (map digit36 r)
  end.

(** The random suffix:
    [Math.random().toString(36).substr(2, 9).toUpperCase()] *)
Definition suffix (r : random_value) : string :=
  toUpperCase (substr 2 9 (Number_toString36 r)).

(** [`E3-${Date.now()}-${...}`]: [now] is the integer number of
    milliseconds since the epoch, printed in decimal. *)
Definition orderNumber (now : Z) (r : random_value) : string :=
  template ["E3-"; pretty now; "-"; suffix r].

(** A character of the suffix the format asks for: 0 to 9 or A to Z. *)
Definition upper_base36_char (c : ascii) : bool :=
  let n := nat_of_ascii c in
  (48 <=? n)%nat && (n <=? 57)%nat || (65 <=? n)%nat && (n <=? 90)%nat.

(** The suffix the format asks for: nine characters, each 0 to 9 or A
    to Z. *)
Definition well_formed_suffix (s : string) : bool :=
  Nat.eqb (String.length s) 9 && forallb upper_base36_char (list_ascii_of_string s).

(** ** The literal parts of the six templates (lines 61 to 248) *)

(* literal parts of the template of business subject *)

Definition business_subject_0 : string :=
  "New E3 Order #".

Definition business_subject_1 : string :=
  " from ".

Definition business_subject_2 : string :=
  " - $".

(* literal parts of the template of business text *)

Definition business_text_0 : string :=
  "
NEW ORDER RECEIVED

Order Number: ".

Definition business_text_1 : string :=
  "
Order Date: ".

Definition business_text_2 : string :=
  "

═══════════════════════════════════════
CUSTOMER INFORMATION
═══════════════════════════════════════
Student Entrepreneur: ".

Definition business_text_3 : string :=
  "
Customer Name: ".

Definition business_text_4 : string :=
  "
Email: ".

Definition business_text_5 : string :=
  "
Phone: ".

Definition business_text_6 : string :=
  "
Address: ".

Definition business_text_7 : string :=
  "

═══════════════════════════════════════
ORDER DETAILS
═══════════════════════════════════════
".

Definition business_text_8 : string :=
  "

───────────────────────────────────────
TOTAL: $".

Definition business_text_9 : string :=
  "
═══════════════════════════════════════

SPECIAL INSTRUCTIONS:
".

Definition business_text_10 : string :=
  "

─────────────────────────────────────────────
This order was submitted through the E3 Achievement online order form.
      ".

(* literal parts of the template of business html *)

Definition business_html_0 : string :=
  "
<!DOCTYPE html>
<html>
<head>
  <style>
    body { font-family: Arial, sans-serif; line-height: 1.6; color: #333; }
    .container { max-width: 600px; margin: 0 auto; padding: 20px; }
    .header { background: linear-gradient(135deg, #ff6b35 0%, #f7931e 100%); color: white; padding: 20px; text-align: center; border-radius: 8px 8px 0 0; }
    .content { background: #f9f9f9; padding: 20px; border: 1px solid #ddd; }
    .section { background: white; padding: 15px; margin-bottom: 15px; border-radius: 5px; border-left: 4px solid #ff6b35; }
    .section-title { font-weight: bold; font-size: 1.1em; margin-bottom: 10px; color: #ff6b35; }
    .order-items { background: white; padding: 15px; border-radius: 5px; }
    .item-row { padding: 8px 0; border-bottom: 1px solid #eee; }
    .total { font-size: 1.3em; font-weight: bold; color: #ff6b35; text-align: right; margin-top: 15px; padding-top: 15px; border-top: 2px solid #ff6b35; }
    .footer { text-align: center; color: #666; font-size: 0.9em; margin-top: 20px; }
  </style>
</head>
<body>
  <div class=" +:+ dq +:+ "container" +:+ dq +:+ ">
    <div class=" +:+ dq +:+ "header" +:+ dq +:+ ">
      <h1>🎉 New Order Received!</h1>
      <p>Order #".

Definition business_html_1 : string :=
  "</p>
    </div>
    <div class=" +:+ dq +:+ "content" +:+ dq +:+ ">
      <div class=" +:+ dq +:+ "section" +:+ dq +:+ ">
        <div class=" +:+ dq +:+ "section-title" +:+ dq +:+ ">📅 Order Information</div>
        <p><strong>Order Date:</strong> ".

Definition business_html_2 : string :=
  "</p>
      </div>

      <div class=" +:+ dq +:+ "section" +:+ dq +:+ ">
        <div class=" +:+ dq +:+ "section-title" +:+ dq +:+ ">👤 Customer Information</div>
        ".

Definition business_html_studentName_0 : string :=
  "<p><strong>Student Entrepreneur:</strong> ".

Definition business_html_studentName_1 : string :=
  "</p>".

Definition business_html_3 : string :=
  "
        <p><strong>Name:</strong> ".

Definition business_html_4 : string :=
  "</p>
        <p><strong>Email:</strong> ".

Definition business_html_5 : string :=
  "</p>
        ".

Definition business_html_phone_0 : string :=
  "<p><strong>Phone:</strong> ".

Definition business_html_phone_1 : string :=
  "</p>".

Definition business_html_6 : string :=
  "
        ".

Definition business_html_address_0 : string :=
  "<p><strong>Address:</strong> ".

Definition business_html_address_1 : string :=
  "</p>".

Definition business_html_7 : string :=
  "
      </div>

      <div class=" +:+ dq +:+ "section" +:+ dq +:+ ">
        <div class=" +:+ dq +:+ "section-title" +:+ dq +:+ ">🛒 Order Details</div>
        <div class=" +:+ dq +:+ "order-items" +:+ dq +:+ ">
          ".

Definition business_html_row_0 : string :=
  "
            <div class=" +:+ dq +:+ "item-row" +:+ dq +:+ ">
              <strong>".

Definition business_html_row_1 : string :=
  "x ".

Definition business_html_row_2 : string :=
  "</strong><br>
              <span style=" +:+ dq +:+ "color: #666;" +:+ dq +:+ ">$".

Definition business_html_row_3 : string :=
  " each = $".

Definition business_html_row_4 : string :=
  "</span>
            </div>
          ".

Definition business_html_8 : string :=
  "
          <div class=" +:+ dq +:+ "total" +:+ dq +:+ ">TOTAL: $".

Definition business_html_9 : string :=
  "</div>
        </div>
      </div>

      ".

Definition business_html_specialInstructions_0 : string :=
  "
      <div class=" +:+ dq +:+ "section" +:+ dq +:+ ">
        <div class=" +:+ dq +:+ "section-title" +:+ dq +:+ ">📝 Special Instructions</div>
        <p>".

Definition business_html_specialInstructions_1 : string :=
  "</p>
      </div>
      ".

Definition business_html_10 : string :=
  "

      <div class=" +:+ dq +:+ "footer" +:+ dq +:+ ">
        <p>This order was submitted through the E3 Achievement online order form.</p>
        <p><strong>E3 Achievement</strong> | 331 West Jackson St., Battle Creek</p>
        <p>📞 269-924-7247 | ✉️ imageinboxe3@gmail.com</p>
      </div>
    </div>
  </div>
</body>
</html>
      ".

(* literal parts of the template of customer subject *)

Definition customer_subject_0 : string :=
  "Order Confirmation #".

Definition customer_subject_1 : string :=
  " - E3 Achievement".

(* literal parts of the template of customer text *)

Definition customer_text_0 : string :=
  "
Thank you for your order!

Order Number: ".

Definition customer_text_1 : string :=
  "
Order Date: ".

Definition customer_text_2 : string :=
  "

Your Order:
".

Definition customer_text_3 : string :=
  "

Total: $".

Definition customer_text_4 : string :=
  "

We've received your order and will begin processing it shortly. ".

Definition customer_text_5 : string :=
  "

Allow up to 2 weeks for custom orders. Rush orders are available for +$5/item.

If you have any questions, please contact us:
📞 269-924-7247
✉️ imageinboxe3@gmail.com

Thank you for supporting E3 Achievement!
Education • Entrepreneurship • Empowerment
      ".

(* literal parts of the template of customer html *)

Definition customer_html_0 : string :=
  "
<!DOCTYPE html>
<html>
<head>
  <style>
    body { font-family: Arial, sans-serif; line-height: 1.6; color: #333; }
    .container { max-width: 600px; margin: 0 auto; padding: 20px; }
    .header { background: linear-gradient(135deg, #ff6b35 0%, #f7931e 100%); color: white; padding: 30px; text-align: center; border-radius: 8px 8px 0 0; }
    .content { background: #f9f9f9; padding: 20px; border: 1px solid #ddd; }
    .order-items { background: white; padding: 15px; margin: 15px 0; border-radius: 5px; }
    .item-row { padding: 8px 0; border-bottom: 1px solid #eee; }
    .total { font-size: 1.3em; font-weight: bold; color: #ff6b35; text-align: right; margin-top: 15px; padding-top: 15px; border-top: 2px solid #ff6b35; }
    .info-box { background: #fff3cd; padding: 15px; border-radius: 5px; border-left: 4px solid #ff6b35; margin: 15px 0; }
    .footer { text-align: center; color: #666; font-size: 0.9em; margin-top: 20px; }
  </style>
</head>
<body>
  <div class=" +:+ dq +:+ "container" +:+ dq +:+ ">
    <div class=" +:+ dq +:+ "header" +:+ dq +:+ ">
      <h1>Thank You for Your Order!</h1>
      <p>Order #".

Definition customer_html_1 : string :=
  "</p>
    </div>
    <div class=" +:+ dq +:+ "content" +:+ dq +:+ ">
      <p>Hi ".

Definition customer_html_2 : string :=
  ",</p>
      <p>We've received your order and will begin processing it shortly!</p>

      <div class=" +:+ dq +:+ "order-items" +:+ dq +:+ ">
        <h3>Your Order:</h3>
        ".

Definition customer_html_row_0 : string :=
  "
          <div class=" +:+ dq +:+ "item-row" +:+ dq +:+ ">
            <strong>".

Definition customer_html_row_1 : string :=
  "x ".

Definition customer_html_row_2 : string :=
  "</strong><br>
            <span style=" +:+ dq +:+ "color: #666;" +:+ dq +:+ ">$".

Definition customer_html_row_3 : string :=
  " each = $".

Definition customer_html_row_4 : string :=
  "</span>
          </div>
        ".

Definition customer_html_3 : string :=
  "
        <div class=" +:+ dq +:+ "total" +:+ dq +:+ ">TOTAL: $".

Definition customer_html_4 : string :=
  "</div>
      </div>

      <div class=" +:+ dq +:+ "info-box" +:+ dq +:+ ">
        <strong>📋 Important Information:</strong><br>
        • Allow up to 2 weeks for custom orders<br>
        • Rush orders available for +$5/item<br>
        • A proof will be provided if applicable
      </div>

      <p>If you have any questions about your order, please don't hesitate to contact us:</p>
      <p style=" +:+ dq +:+ "text-align: center;" +:+ dq +:+ ">
        <strong>📞 269-924-7247</strong><br>
        <strong>✉️ imageinboxe3@gmail.com</strong>
      </p>

      <div class=" +:+ dq +:+ "footer" +:+ dq +:+ ">
        <p><strong>E3 Achievement</strong></p>
        <p>Education • Entrepreneurship • Empowerment</p>
        <p>331 West Jackson St., Battle Creek</p>
      </div>
    </div>
  </div>
</body>
</html>
      ".

(** ** The Notification Composer (lines 53 to 249) *)

Section Server.
Context `{E : Engine}.

(** The four variables that [const { customer, items, total, orderDate }
    = req.body] binds. *)
Record Order := {
  customer : value;
  items : value;
  total : value;
  orderDate : value;
}.

(** The options object handed to [transporter.sendMail]. *)
Record MailOptions := {
  mail_from : value;
  mail_to : value;
  mail_subject : string;
  mail_text : string;
  mail_html : string;
}.

(** [${v.k}] *)
Definition print (v : value) (k : string) : result string :=
  get v k ≫= ToString.

(** [${v.k || 'marker'}] *)
Definition print_or (v : value) (k marker : string) : result string :=
  x ← get v k; or_else x marker.

(** [${v.k ? `before${v.k}after` : ''}] *)
Definition print_if (v : value) (k before after : string) : result string :=
  x ← get v k;
  if truthy x
  then y ← get v k; s ← ToString y; mret (template [before; s; after])
  else mret EmptyString.

(** [${v.k.toFixed(2)}] *)
Definition print_fixed (v : value) (k : string) : result string :=
  get v k ≫= toFixed2.

(** One line of [itemsList] (line 54). *)
Definition item_line (item : value) : result string :=
  quantity ← print item "quantity";
  name ← print item "name";
  price ← print_fixed item "price";
  subtotal ← print_fixed item "subtotal";
  mret (template [quantity; "x "; name; " @ $"; price; " = $"; subtotal]).

Definition itemsList (o : Order) : result string :=
  join nl <$> array_map item_line (items o).

(** One row of the order table of a rich-text body (lines 133 to 138
    and 217 to 222); the two bodies differ in the indentation of the
    literal parts. *)
Definition item_row (r0 r1 r2 r3 r4 : string) (item : value) : result string :=
  quantity ← print item "quantity";
  name ← print item "name";
  price ← print_fixed item "price";
  subtotal ← print_fixed item "subtotal";
  mret (template [r0; quantity; r1; name; r2; price; r3; subtotal; r4]).

Definition business_subject (o : Order) (orderNumber : string) : result string :=
  name ← print (customer o) "name";
  total ← toFixed2 (total o);
  mret (template [business_subject_0; orderNumber; business_subject_1; name;
                  business_subject_2; total]).

Definition business_text (o : Order) (orderNumber itemsList : string) : result string :=
  date ← new_Date_toLocaleString (orderDate o);
  studentName ← print_or (customer o) "studentName" "N/A";
  name ← print (customer o) "name";
  email ← print (customer o) "email";
  phone ← print_or (customer o) "phone" "N/A";
  address ← print_or (customer o) "address" "N/A";
  total ← toFixed2 (total o);
  specialInstructions ← print_or (customer o) "specialInstructions" "None";
  mret (template
    [business_text_0; orderNumber; business_text_1; date; business_text_2;
     studentName; business_text_3; name; business_text_4; email;
     business_text_5; phone; business_text_6; address; business_text_7;
     itemsList; business_text_8; total; business_text_9;
     specialInstructions; business_text_10]).

Definition business_html (o : Order) (orderNumber : string) : result string :=
  date ← new_Date_toLocaleString (orderDate o);
  studentName ← print_if (customer o) "studentName"
                   business_html_studentName_0 business_html_studentName_1;
  name ← print (customer o) "name";
  email ← print (customer o) "email";
  phone ← print_if (customer o) "phone"
             business_html_phone_0 business_html_phone_1;
  address ← print_if (customer o) "address"
               business_html_address_0 business_html_address_1;
  rows ← array_map
            (item_row business_html_row_0 business_html_row_1 business_html_row_2
                      business_html_row_3 business_html_row_4) (items o);
  total ← toFixed2 (total o);
  specialInstructions ← print_if (customer o) "specialInstructions"
                           business_html_specialInstructions_0
                           business_html_specialInstructions_1;
  mret (template
    [business_html_0; orderNumber; business_html_1; date; business_html_2;
     studentName; business_html_3; name; business_html_4; email;
     business_html_5; phone; business_html_6; address; business_html_7;
     join EmptyString rows; business_html_8; total; business_html_9;
     specialInstructions; business_html_10]).

Definition customer_subject (orderNumber : string) : string :=
  template [customer_subject_0; orderNumber; customer_subject_1].

Definition customer_text (o : Order) (orderNumber itemsList : string) : result string :=
  date ← new_Date_toLocaleString (orderDate o);
  total ← toFixed2 (total o);
  email ← get (customer o) "email";
  mret (template
    [customer_text_0; orderNumber; customer_text_1; date; customer_text_2;
     itemsList; customer_text_3; total; customer_text_4;
     if truthy email
     then "A proof will be provided to your email if applicable."
     else EmptyString;
     customer_text_5]).

Definition customer_html (o : Order) (orderNumber : string) : result string :=
  name ← print (customer o) "name";
  rows ← array_map
            (item_row customer_html_row_0 customer_html_row_1 customer_html_row_2
                      customer_html_row_3 customer_html_row_4) (items o);
  total ← toFixed2 (total o);
  mret (template
    [customer_html_0; orderNumber; customer_html_1; name; customer_html_2;
     join EmptyString rows; customer_html_3; total; customer_html_4]).

(** [process.env.EMAIL_USER]: a string, or [undefined] when the
    variable is not set. *)
Definition process_env (EMAIL_USER : option string) : value :=
  match EMAIL_USER with
  | Some user => VStr user
  | None => VUndefined
  end.

(** The object literal of lines 58 to 160; its properties are
    evaluated in the order they are written. *)
Definition businessEmailOptions (EMAIL_USER : option string) (o : Order)
    (orderNumber itemsList : string) : result MailOptions :=
  subject ← business_subject o orderNumber;
  text ← business_text o orderNumber itemsList;
  html ← business_html o orderNumber;
  mret {| mail_from := process_env EMAIL_USER;
          mail_to := VStr "imageinboxe3@gmail.com";
          mail_subject := subject;
          mail_text := text;
          mail_html := html |}.

(** The object literal of lines 163 to 249. *)
Definition customerEmailOptions (EMAIL_USER : option string) (o : Order)
    (orderNumber itemsList : string) : result MailOptions :=
  to ← get (customer o) "email";
  text ← customer_text o orderNumber itemsList;
  html ← customer_html o orderNumber;
  mret {| mail_from := process_env EMAIL_USER;
          mail_to := to;
          mail_subject := customer_subject orderNumber;
          mail_text := text;
          mail_html := html |}.

(** Lines 53 to 249 as a whole: the list of items, then the two
    envelopes. *)
Definition compose (EMAIL_USER : option string) (o : Order) (orderNumber : string)
    : result (MailOptions * MailOptions) :=
  list ← itemsList o;
  business ← businessEmailOptions EMAIL_USER o orderNumber list;
  to_customer ← customerEmailOptions EMAIL_USER o orderNumber list;
  mret (business, to_customer).

(** ** The Order Validator (lines 37 to 47) *)

(** [!customer || !customer.name || !customer.email] *)
Definition missing_customer_information (customer : value) : result bool :=
  if negb (truthy customer) then mret true else
  name ← get customer "name";
  if negb (truthy name) then mret true else
  email ← get customer "email";
  mret (negb (truthy email)).

(** [!items || items.length === 0] *)
Definition no_items (items : value) : result bool :=
  if negb (truthy items) then mret true else length_is_zero items.

(** ** The transport and the world of one request *)

(** How the promise of [transporter.sendMail] settles. *)
Inductive SendResult :=
| Delivered
| Rejected (reason : string).

(** What one run of the handler reads from outside: the clock, the
    random source, the transport, and which of the two submissions
    settles first (it decides whose reason [Promise.all] rejects with
    when both fail). *)
Record World := {
  Date_now : Z;
  Math_random : random_value;
  sendMail : MailOptions -> SendResult;
  business_settles_first : bool;
}.

(** [await Promise.all([p1, p2])] *)
Definition Promise_all (business_first : bool) (p1 p2 : SendResult) : result unit :=
  match p1, p2 with
  | Delivered, Delivered => Ok tt
  | Rejected reason, Delivered => Throw (SendError reason)
  | Delivered, Rejected reason => Throw (SendError reason)
  | Rejected reason1, Rejected reason2 =>
      Throw (SendError (if business_first then reason1 else reason2))
  end.

(** ** The Intake Endpoint (lines 32 to 272) *)

Record Response := {
  status : Z;
  json : value;
}.

(** [{ error: message }] *)
Definition error_body (message : string) : value :=
  VObj {[ "error" := VStr message ]}.

Definition MissingCustomerInfo : Response :=
  {| status := 400; json := error_body "Missing required customer information" |}.

Definition EmptyOrder : Response :=
  {| status := 400; json := error_body "No items in order" |}.

Definition generic_failure : string :=
  "Failed to submit order. Please try again or contact us directly.".

Definition InternalError : Response :=
  {| status := 500; json := error_body generic_failure |}.

Definition RateLimited : Response :=
  {| status := 429; json := error_body "Too many orders submitted, please try again later." |}.

(** [{ success: true, orderNumber: orderNumber, message: '...' }] *)
Definition success (orderNumber : string) : Response :=
  {| status := 200;
     json := VObj (<[ "success" := VBool true ]>
                  (<[ "orderNumber" := VStr orderNumber ]>
                  {[ "message" := VStr "Order submitted successfully" ]})) |}.

(** The body of the [try] block runs in a monad of exceptions over the
    list of the envelopes submitted to the transport so far. *)
Definition io (A : Type) : Type := list MailOptions -> result A * list MailOptions.

#[global] Instance io_ret : MRet io := fun A a sent => (Ok a, sent).
#[global] Instance io_bind : MBind io :=
  fun A B f m sent =>
    match m sent with
    | (Ok a, sent') => f a sent'
    | (Throw e, sent') => (Throw e, sent')
    end.

Definition pure {A} (r : result A) : io A := fun sent => (r, sent).

Definition transporter_sendMail (w : World) (m : MailOptions) : io SendResult :=
  fun sent => (Ok (sendMail w m), sent ++ [m]).

Definition submit_order (EMAIL_USER : option string) (w : World) (req_body : value)
    : io Response :=
  customer ← pure (get req_body "customer");
  items ← pure (get req_body "items");
  total ← pure (get req_body "total");
  orderDate ← pure (get req_body "orderDate");
  let o := {| customer := customer; items := items; total := total;
              orderDate := orderDate |} in
  missing ← pure (missing_customer_information customer);
  if (missing : bool) then mret MissingCustomerInfo else
  empty ← pure (no_items items);
  if (empty : bool) then mret EmptyOrder else
  let orderNumber := orderNumber (Date_now w) (Math_random w) in
  list ← pure (itemsList o);
  business ← pure (businessEmailOptions EMAIL_USER o orderNumber list);
  to_customer ← pure (customerEmailOptions EMAIL_USER o orderNumber list);
  p1 ← transporter_sendMail w business;
  p2 ← transporter_sendMail w to_customer;
  _ ← pure (Promise_all (business_settles_first w) p1 p2);
  mret (success orderNumber).

(** What one request leaves behind: the response, the envelopes handed
    to the transport, and what [console.error] printed. *)
Record Outcome := {
  response : Response;
  submitted : list MailOptions;
  console_error : list exn;
}.

(** The [try] block ended in a response. *)
Definition answered (res : Response) (sent : list MailOptions) : Outcome :=
  {| response := res; submitted := sent; console_error := [] |}.

(** The [catch] block: the exception is logged and the answer is the
    generic failure. *)
Definition failed (error : exn) (sent : list MailOptions) : Outcome :=
  {| response := InternalError; submitted := sent; console_error := [error] |}.

Definition handler (EMAIL_USER : option string) (w : World) (req_body : value) : Outcome :=
  match submit_order EMAIL_USER w req_body [] with
  | (Ok res, sent) => answered res sent
  | (Throw error, sent) => failed error sent
  end.

(** The payload passes both rules of the validator. *)
Definition validated (req_body : value) : Prop :=
  exists c i,
    get req_body "customer" = Ok c /\ get req_body "items" = Ok i /\
    missing_customer_information c = Ok false /\ no_items i = Ok false.

(** The variables the handler binds from a payload. *)
Definition order_of (req_body : value) : result Order :=
  customer ← get req_body "customer";
  items ← get req_body "items";
  total ← get req_body "total";
  orderDate ← get req_body "orderDate";
  mret {| customer := customer; items := items; total := total;
          orderDate := orderDate |}.

End Server.

(** ** The shape of an order the composer can render *)

Section Shape.
Context `{E : Engine}.

(** [v] is not an object that owns a [toString] property, nor an array
    with such an object in it, at any depth. *)
Fixpoint plain (v : value) : bool :=
  match v with
  | VArr elems => forallb plain elems
  | VObj props =>
      match props !! "toString" with
      | Some _ => false
      | None => true
      end
  | VUndefined | VNull | VBool _ | VNum _ | VStr _ => true
  end.

(** How many arrays lie one inside the other in [v]; the properties of
    an object are not looked into. *)
Fixpoint nesting (v : value) : nat :=
  match v with
  | VArr elems => S (foldr (fun x d => Nat.max (nesting x) d) 0 elems)
  | VObj _ | VUndefined | VNull | VBool _ | VNum _ | VStr _ => 0
  end.

(** [d + 1] arrays one inside the other, the innermost empty. *)
Fixpoint nest (d : nat) : value :=
  match d with
  | 0 => VArr []
  | S d' => VArr [nest d']
  end.

(** [v] can be converted to a string: it is plain and its arrays are
    nested no deeper than the call stack of the engine has room for. *)
Definition printable (v : value) : bool :=
  plain v && (nesting v <=? join_depth).

Definition is_number (v : value) : bool :=
  match v with
  | VNum _ => true
  | _ => false
  end.

(** The property [k] of [v] can be read and satisfies [p]; a property
    that is not there reads as [undefined]. *)
Definition has (p : value -> bool) (v : value) (k : string) : bool :=
  match get v k with
  | Ok x => p x
  | Throw _ => false
  end.

Definition well_formed_item (item : value) : bool :=
  has printable item "quantity" && has printable item "name" &&
  has is_number item "price" && has is_number item "subtotal".

Definition well_formed_order (o : Order) : bool :=
  match items o with
  | VArr elems => forallb well_formed_item elems
  | _ => false
  end &&
  is_number (total o) &&
  printable (orderDate o) &&
  has printable (customer o) "name" &&
  has printable (customer o) "email" &&
  has printable (customer o) "studentName" &&
  has printable (customer o) "phone" &&
  has printable (customer o) "address" &&
  has printable (customer o) "specialInstructions".

(** *** The optional customer fields *)

Inductive optional_field :=
| studentName
| phone
| address
| specialInstructions.

Definition field_key (f : optional_field) : string :=
  match f with
  | studentName => "studentName"
  | phone => "phone"
  | address => "address"
  | specialInstructions => "specialInstructions"
  end.

(** What the plain-text body prints in place of a field that is not
    there (lines 71, 74, 75 and 87). *)
Definition absence_marker (f : optional_field) : string :=
  match f with
  | specialInstructions => "None"
  | _ => "N/A"
  end.

(** The literal part of the plain-text template that ends just before
    the field, and the label it ends with. *)
Definition text_before (f : optional_field) : string :=
  match f with
  | studentName => business_text_2
  | phone => business_text_5
  | address => business_text_6
  | specialInstructions => business_text_9
  end.

Definition text_label (f : optional_field) : string :=
  match f with
  | studentName => "Student Entrepreneur: "
  | phone => "Phone: "
  | address => "Address: "
  | specialInstructions => "SPECIAL INSTRUCTIONS:" +:+ nl
  end.

(** The markup the rich-text body puts around a field that is there
    (lines 123, 126, 127 and 143 to 148). *)
Definition html_before (f : optional_field) : string :=
  match f with
  | studentName => business_html_studentName_0
  | phone => business_html_phone_0
  | address => business_html_address_0
  | specialInstructions => business_html_specialInstructions_0
  end.

Definition html_after (f : optional_field) : string :=
  match f with
  | studentName => business_html_studentName_1
  | phone => business_html_phone_1
  | address => business_html_address_1
  | specialInstructions => business_html_specialInstructions_1
  end.

(** The order whose customer does not own the property [k]. *)
Definition delete_property (k : string) (v : value) : value :=
  match v with
  | VObj props => VObj (delete k props)
  | _ => v
  end.

Definition without (f : optional_field) (o : Order) : Order :=
  {| customer := delete_property (field_key f) (customer o);
     items := items o;
     total := total o;
     orderDate := orderDate o |}.

(** [o'] is the order [o] but for the field [f] of its customer. *)
Definition same_but (f : optional_field) (o o' : Order) : Prop :=
  items o' = items o /\ total o' = total o /\ orderDate o' = orderDate o /\
  forall k, k <> field_key f -> get (customer o') k = get (customer o) k.

(** Two renderings treat an absent field the same way: both print the
    marker, or both leave out what is titled [title]. *)
Definition same_absence_treatment (title marker text html : string) : Prop :=
  (Infix marker text /\ Infix marker html) \/
  (~ Infix title text /\ ~ Infix title html).

End Shape.

(** ** The Rate Gate (lines 16 to 20) *)

Module limiter.

(** The options of line 17 and 18. *)
Definition windowMs : Z := 15 * 60 * 1000.
Definition max : nat := 5.

(** The counter of one client identity: the attempts counted in its
    current window and the time the window ends. *)
Record Window := {
  totalHits : nat;
  resetTime : Z;
}.

(** Modelled from the spec: the middleware that [rateLimit] of the
    package express-rate-limit returns is not in the source, which
    only configures it. By the spec it keeps, in the process, a map
    from client identity to a counter with an expiry; the window is a
    fixed-size bucket that starts with the first attempt counted in
    it. [increment] counts one attempt of [key] at the time [now]. *)
Definition increment (store : gmap string Window) (key : string) (now : Z) : Window :=
  match store !! key with
  | Some w =>
      if (now <? resetTime w)%Z
      then {| totalHits := S (totalHits w); resetTime := resetTime w |}
      else {| totalHits := 1; resetTime := (now + windowMs)%Z |}
  | None => {| totalHits := 1; resetTime := (now + windowMs)%Z |}
  end.

(** Modelled from the spec: the decision of the gate. Every attempt is
    counted, and an attempt is let through while the count of its
    window is at most [max]. *)
Definition check (store : gmap string Window) (key : string) (now : Z)
    : bool * gmap string Window :=
  let w := increment store key now in
  ((totalHits w <=? max)%nat, <[ key := w ]> store).

(** [key] has a window open at [now]. *)
Definition open (store : gmap string Window) (key : string) (now : Z) : bool :=
  match store !! key with
  | Some w => (now <? resetTime w)%Z
  | None => false
  end.

End limiter.

Section Endpoint.
Context `{E : Engine}.

(** One request: the address it comes from, the time the rate gate
    sees it, its payload, and the world its handler runs in. *)
Record Request := {
  ip : string;
  arrival : Z;
  body : value;
  world : World;
}.

(** What a rejected attempt leaves behind: the 429 response of the
    gate; the handler does not run. *)
Definition rejected : Outcome := answered RateLimited [].

(** [app.post('/api/submit-order', limiter, handler)]: the gate, then
    the handler for an attempt the gate lets through. *)
Definition post_submit_order (EMAIL_USER : option string)
    (store : gmap string limiter.Window) (req : Request)
    : Outcome * gmap string limiter.Window :=
  let '(pass, store') := limiter.check store (ip req) (arrival req) in
  (if pass then handler EMAIL_USER (world req) (body req) else rejected, store').

(** The server on a sequence of requests, each paired with its
    outcome. *)
Fixpoint serve (EMAIL_USER : option string) (store : gmap string limiter.Window)
    (reqs : list Request) : list (Request * Outcome) :=
  match reqs with
  | [] => []
  | req :: rest =>
      let '(out, store') := post_submit_order EMAIL_USER store req in
      (req, out) :: serve EMAIL_USER store' rest
  end.

(** The attempts of one client identity among the requests served. *)
Definition attempts_of {A} (client : string) (l : list (Request * A)) : list (Request * A) :=
  filter (fun ro => ip ro.1 = client) l.

(** What the spec promises for the attempts of one identity inside one
    window: the first [limiter.max] go to the handler, the others are
    rejected. [k] counts the attempts before the first of the list. *)
Fixpoint expected (EMAIL_USER : option string) (k : nat) (reqs : list Request)
    : list (Request * Outcome) :=
  match reqs with
  | [] => []
  | req :: rest =>
      (req, if (S k <=? limiter.max)%nat
            then handler EMAIL_USER (world req) (body req)
            else rejected)
      :: expected EMAIL_USER (S k) rest
  end.

End Endpoint.

(** ** An engine and an order for the examples *)

Module example.

(** Numbers with at most two decimals, kept as a count of hundredths:
    [350] is 3.5. For such a number of moderate size the double
    nearest to it prints as the decimal itself. *)
Definition two_digits (n : Z) : string :=
  if (n <? 10)%Z then "0" +:+ pretty n else pretty n.

Definition sign (c : Z) : string := if (c <? 0)%Z then "-" else EmptyString.

Definition toFixed2 (c : Z) : string :=
  let a := Z.abs c in
  sign c +:+ pretty (a / 100)%Z +:+ "." +:+ two_digits (a mod 100)%Z.

Definition to_string (c : Z) : string :=
  let a := Z.abs c in
  let whole := pretty (a / 100)%Z in
  let frac := (a mod 100)%Z in
  if (frac =? 0)%Z then sign c +:+ whole
  else if (frac mod 10 =? 0)%Z then sign c +:+ whole +:+ "." +:+ pretty (frac / 10)%Z
  else sign c +:+ whole +:+ "." +:+ two_digits frac.

(** A process in the en-US locale and the UTC time zone, on the dates
    of the examples; nothing else is tabulated, and what is not prints
    as an invalid date does. Its call stack has room for a thousand
    arrays one inside the other. *)
Definition toLocaleString (p : primitive Z) : string :=
  match p with
  | PStr s =>
      if String.eqb s "2024-01-01T00:00:00Z" then "1/1/2024, 12:00:00 AM"
      else "Invalid Date"
  | _ => "Invalid Date"
  end.

#[export] Instance engine : Engine := {|
  number := Z;
  number_is_zero := fun c => (c =? 0)%Z;
  number_to_string := to_string;
  number_toFixed2 := toFixed2;
  Date_toLocaleString := toLocaleString;
  join_depth := 1000;
|}.

Definition object (props : list (string * value)) : value := VObj (list_to_map props).

(** The order of the scenario of the spec. *)
Definition jane : value :=
  object [("name", VStr "Jane Doe"); ("email", VStr "jane@example.com")].

Definition sticker : value :=
  object [("name", VStr "Sticker"); ("quantity", VNum 200%Z);
          ("price", VNum 350%Z); ("subtotal", VNum 700%Z)].

Definition payload : value :=
  object [("customer", jane); ("items", VArr [sticker]); ("total", VNum 700%Z);
          ("orderDate", VStr "2024-01-01T00:00:00Z")].

(** The same customer with a phone, and her order. *)
Definition jane_with_phone : value :=
  object [("phone", VStr "269-555-0100"); ("name", VStr "Jane Doe");
          ("email", VStr "jane@example.com")].

(** The same order with an item that has no price and no subtotal. *)
Definition unpriced : value :=
  object [("name", VStr "Sticker"); ("quantity", VNum 200%Z)].

Definition payload_unpriced : value :=
  object [("customer", jane); ("items", VArr [unpriced]); ("total", VNum 700%Z);
          ("orderDate", VStr "2024-01-01T00:00:00Z")].

(** The same order from a customer whose name is an empty array
    inside five thousand arrays. *)
Definition payload_deep : value :=
  object [("customer", object [("name", nest 5000); ("email", VStr "jane@example.com")]);
          ("items", VArr [sticker]); ("total", VNum 700%Z);
          ("orderDate", VStr "2024-01-01T00:00:00Z")].

(** Payloads the validator refuses. *)
Definition payload_no_customer : value :=
  object [("items", VArr [])].

Definition payload_no_items : value :=
  object [("customer", jane); ("items", VArr [])].

(** A transport that delivers, and one that rejects whatever goes to
    the customer. *)
Definition delivers (m : MailOptions) : SendResult := Delivered.

Definition bounces (m : MailOptions) : SendResult :=
  match mail_to m with
  | VStr "imageinboxe3@gmail.com" => Delivered
  | _ => Rejected "550 mailbox unavailable"
  end.

Definition world_ok : World :=
  {| Date_now := 1700000000000; Math_random := [18; 3; 35; 0; 7; 12; 29; 1; 20; 5; 11];
     sendMail := delivers; business_settles_first := true |}.

Definition world_bounce : World :=
  {| Date_now := 1700000000000; Math_random := [18; 3; 35; 0; 7; 12; 29; 1; 20; 5; 11];
     sendMail := bounces; business_settles_first := true |}.

(** Another run: a random value with the same first nine digits,
    another transport. *)
Definition world_other : World :=
  {| Date_now := 1700000000000; Math_random := [18; 3; 35; 0; 7; 12; 29; 1; 20; 30; 2];
     sendMail := bounces; business_settles_first := false |}.

(** The variables the handler binds from [payload], its order number
    in [world_ok], and the two bodies of its business message. *)
Definition order : Order :=
  {| customer := jane; items := VArr [sticker]; total := VNum 700%Z;
     orderDate := VStr "2024-01-01T00:00:00Z" |}.

Definition order_with_phone : Order :=
  {| customer := jane_with_phone; items := VArr [sticker]; total := VNum 700%Z;
     orderDate := VStr "2024-01-01T00:00:00Z" |}.

Definition order_number : string := "E3-1700000000000-I3Z07CT1K".

Definition lines : string := "2x Sticker @ $3.50 = $7.00".

Definition text : string :=
  Eval vm_compute in
    match business_text order order_number lines with
    | Ok t => t
    | Throw _ => EmptyString
    end.

Definition html : string :=
  Eval vm_compute in
    match business_html order order_number with
    | Ok h => h
    | Throw _ => EmptyString
    end.

(** The two envelopes of [payload]. *)
Definition business_mail : MailOptions :=
  Eval vm_compute in
    match compose None order order_number with
    | Ok (bm, _) => bm
    | Throw _ => {| mail_from := VUndefined; mail_to := VUndefined;
                    mail_subject := EmptyString; mail_text := EmptyString;
                    mail_html := EmptyString |}
    end.

Definition customer_mail : MailOptions :=
  Eval vm_compute in
    match compose None order order_number with
    | Ok (_, cm) => cm
    | Throw _ => {| mail_from := VUndefined; mail_to := VUndefined;
                    mail_subject := EmptyString; mail_text := EmptyString;
                    mail_html := EmptyString |}
    end.

(** Requests of one client, and one of another client. *)
Definition request (t : Z) : Request :=
  {| ip := "203.0.113.7"; arrival := t; body := payload; world := world_ok |}.

Definition stranger (t : Z) : Request :=
  {| ip := "198.51.100.23"; arrival := t; body := payload_no_items;
     world := world_bounce |}.

Definition traffic : list Request :=
  [stranger 0; request 1000; request 2000; stranger 2500; request 3000;
   request 4000; request 5000; stranger 6000; request 899999; request 900999].

End example.

(** ** The configuration and the other route (lines 8 to 29 and 275 to 277) *)

(** [process.env.NAME || fallback]: a variable that is not set, or set
    to the empty string, gives the fallback. *)
Definition env_or (variable : option string) (fallback : string) : string :=
  match variable with
  | Some s => if String.eqb s EmptyString then fallback else s
  | None => fallback
  end.

(** The user the transport authenticates as (line 26). *)
Definition transporter_auth_user (EMAIL_USER : option string) : string :=
  env_or EMAIL_USER "imageinboxe3@gmail.com".

(** An evaluation that throws nothing but an error of the engine: a
    [TypeError], or the [RangeError] of the exhausted stack. *)
Definition only_engine_error {A} (r : result A) : Prop :=
  forall e, r = Throw e -> e = TypeError \/ e = RangeError.

(** A text without a dash. *)
Definition dash_free (s : string) : Prop :=
  Forall (fun c => c <> "-"%char) (list_ascii_of_string s).

(** The digit a character of a suffix stands for, the inverse of
    [digit36] followed by [ascii_toUpperCase]. *)
Definition digit_of_upper (c : ascii) : nat :=
  let n := nat_of_ascii c in
  if (65 <=? n)%nat then n - 55 else n - 48.

Section Routes.
Context `{E : Engine}.

(** The health check (lines 275 to 277):
    [res.json({ status: 'OK', timestamp: new Date().toISOString() })],
    with the status 200 that [res.json] answers by default.
    [toISOString] is the built-in, applied to the time of the call. *)
Definition health (toISOString : Z -> string) (now : Z) : Response :=
  {| status := 200;
     json := VObj (<[ "status" := VStr "OK" ]>
                  {[ "timestamp" := VStr (toISOString now) ]}) |}.

(** A request to one of the two routes of the application. The gate is
    mounted on the order route alone (line 32). *)
Inductive Incoming :=
| PostSubmitOrder (req : Request)
| GetHealth (now : Z).

Definition app (EMAIL_USER : option string) (toISOString : Z -> string)
    (store : gmap string limiter.Window) (r : Incoming)
    : Outcome * gmap string limiter.Window :=
  match r with
  | PostSubmitOrder req => post_submit_order EMAIL_USER store req
  | GetHealth now => (answered (health toISOString now) [], store)
  end.




End Routes.

(** ** More payloads for the examples *)

Module scenario.
Import example.

(** Items that are a text and not an array. *)
Definition payload_text_items : value :=
  object [("customer", jane); ("items", VStr "two stickers"); ("total", VNum 700%Z)].

End scenario.

Arguments template : simpl never.
Arguments orderNumber : simpl never.
Arguments pretty : simpl never.

(** * Properties *)

(** ** Strings *)

Lemma append_cons (x : ascii) (a b : string) :
  String x a +:+ b = String x (a +:+ b).
Proof. reflexivity. Qed.

Lemma append_nil_l (a : string) : EmptyString +:+ a = a.
Proof. reflexivity. Qed.

Lemma append_assoc (a b c : string) : (a +:+ b) +:+ c = a +:+ (b +:+ c).
Proof.
  induction a as [|x a IH]; [reflexivity|]. now rewrite !append_cons, IH.
Qed.

Lemma append_nil_r (a : string) : a +:+ EmptyString = a.
Proof.
  induction a as [|x a IH]; [reflexivity|]. now rewrite append_cons, IH.
Qed.

Create HintDb infix.

Lemma Infix_refl (s : string) : Infix s s.
Proof.
  exists EmptyString, EmptyString. now rewrite append_nil_l, append_nil_r.
Qed.

Lemma Infix_append_l (sub a b : string) : Infix sub a -> Infix sub (a +:+ b).
Proof.
  intros (p & q & ->). exists p, (q +:+ b). now rewrite !append_assoc.
Qed.

Lemma Infix_append_r (sub a b : string) : Infix sub b -> Infix sub (a +:+ b).
Proof.
  intros (p & q & ->). exists (a +:+ p), q. now rewrite !append_assoc.
Qed.

Lemma Infix_trans (a b c : string) : Infix a b -> Infix b c -> Infix a c.
Proof.
  intros (p & q & ->) (p' & q' & ->).
  exists (p' +:+ p), (q +:+ q'). now rewrite !append_assoc.
Qed.

#[global] Hint Resolve Infix_refl Infix_append_l Infix_append_r : infix.

(** A part of a template occurs in the text of the template. *)
Lemma Infix_template (x : string) (parts : list string) :
  x ∈ parts -> Infix x (template parts).
Proof.
  induction 1 as [x l | x y l _ IH]; unfold template; fold template;
    auto with infix.
Qed.

(** Two neighbouring parts of a template occur side by side. *)
Lemma Infix_template_pair (x y : string) (before after : list string) :
  Infix (x +:+ y) (template (before ++ x :: y :: after)).
Proof.
  induction before as [|b before IH]; unfold template; fold template.
  - exists EmptyString, (template after). cbn [app].
    unfold template; fold template. now rewrite append_nil_l, append_assoc.
  - now apply Infix_append_r.
Qed.

Lemma prefix_spec (sub s : string) :
  String.prefix sub s = true <-> exists after, s = sub +:+ after.
Proof.
  revert s. induction sub as [|c sub IH]; intros [|d s]; simpl.
  - split; eauto.
  - split; eauto.
  - split; [discriminate | intros [? ?]; discriminate].
  - destruct (Ascii.ascii_dec c d) as [->|Hne].
    + rewrite IH. split; intros [after H]; exists after.
      * now rewrite H.
      * rewrite append_cons in H. now injection H.
    + split; [discriminate|]. intros [after H].
      rewrite append_cons in H. injection H. congruence.
Qed.

Lemma includes_spec (s sub : string) :
  includes s sub = true <-> Infix sub s.
Proof.
  induction s as [|c s IH].
  - unfold includes. rewrite orb_false_r, prefix_spec. split.
    + intros [after H]. exists EmptyString, after. exact H.
    + intros (p & q & H). destruct p; [eauto | discriminate].
  - unfold includes; fold includes. rewrite orb_true_iff, IH, prefix_spec.
    split.
    + intros [[after H] | (p & q & ->)].
      * exists EmptyString, after. exact H.
      * exists (String c p), q. reflexivity.
    + intros (p & q & H). destruct p as [|d p].
      * left. exists q. exact H.
      * right. exists p, q. rewrite append_cons in H. now injection H.
Qed.

Lemma not_includes (s sub : string) : includes s sub = false -> ~ Infix sub s.
Proof. intros H HI. apply includes_spec in HI. congruence. Qed.

(** ** Tactics for the result monad and for templates *)

(** Inversion of a chain of [x ← m; ...] that ends in [Ok]: every
    step of the chain succeeded. *)
Ltac binds H :=
  cbv [mbind result_bind mret result_ret fmap result_fmap] in H;
  repeat lazymatch type of H with
    | match ?m with Ok _ => _ | Throw _ => _ end = Ok _ =>
        let Hm := fresh "Hm" in
        destruct m eqn:Hm; [cbv beta iota in H | discriminate H]
    end.

(** The goal is that one of the parts of a template occurs in it. *)
Ltac part := apply Infix_template; rewrite !elem_of_cons; auto 30.

(** ** The handler, step by step *)

Section HandlerFacts.
Context `{E : Engine}.

Ltac run :=
  cbv [mbind mret io_bind io_ret result_bind result_ret pure
       transporter_sendMail app customer items total orderDate].

(** The handler as a cascade over the pure stages: the binding of the
    variables, the two rules of the validator, the composition and the
    dispatch. *)
Lemma handler_stages (user : option string) (w : World) (req_body : value) :
  handler user w req_body =
  match order_of req_body with
  | Throw e => failed e []
  | Ok o =>
      match missing_customer_information (customer o) with
      | Throw e => failed e []
      | Ok true => answered MissingCustomerInfo []
      | Ok false =>
          match no_items (items o) with
          | Throw e => failed e []
          | Ok true => answered EmptyOrder []
          | Ok false =>
              let n := orderNumber (Date_now w) (Math_random w) in
              match compose user o n with
              | Throw e => failed e []
              | Ok (business, to_customer) =>
                  match Promise_all (business_settles_first w)
                          (sendMail w business) (sendMail w to_customer) with
                  | Throw e => failed e [business; to_customer]
                  | Ok _ => answered (success n) [business; to_customer]
                  end
              end
          end
      end
  end.
Proof.
  unfold handler, submit_order, order_of, compose.
  destruct (get req_body "customer") as [c|e]; run; [|reflexivity].
  destruct (get req_body "items") as [i|e]; run; [|reflexivity].
  destruct (get req_body "total") as [t|e]; run; [|reflexivity].
  destruct (get req_body "orderDate") as [d|e]; run; [|reflexivity].
  destruct (missing_customer_information c) as [[|]|e]; run; try reflexivity.
  destruct (no_items i) as [[|]|e]; run; try reflexivity.
  destruct (itemsList _) as [l|e]; run; [|reflexivity].
  destruct (businessEmailOptions _ _ _ _) as [b|e]; run; [|reflexivity].
  destruct (customerEmailOptions _ _ _ _) as [cm|e]; run; [|reflexivity].
  destruct (Promise_all _ _ _) as [[]|e]; reflexivity.
Qed.

End HandlerFacts.

(** ** The validator and the dispatcher *)

Section Intake.
Context `{E : Engine}.

Lemma get_defined (v : value) (k k' : string) (x : value) :
  get v k = Ok x -> exists y, get v k' = Ok y.
Proof. destruct v; simpl; intros H; try discriminate; eauto. Qed.

Lemma get_truthy (v : value) (k : string) :
  truthy v = true -> exists y, get v k = Ok y.
Proof. destruct v; simpl; intros H; try discriminate; eauto. Qed.

(** A validated payload binds the four variables. *)
Lemma validated_order (req_body : value) :
  validated req_body ->
  exists o, order_of req_body = Ok o /\
    missing_customer_information (customer o) = Ok false /\
    no_items (items o) = Ok false.
Proof.
  intros (c & i & Hc & Hi & Hm & Hn). unfold order_of.
  destruct (get_defined _ _ "total" _ Hc) as [t Ht].
  destruct (get_defined _ _ "orderDate" _ Hc) as [d Hd].
  rewrite Hc, Hi, Ht, Hd. eexists. split; [reflexivity|]. now split.
Qed.

Lemma order_of_customer (req_body : value) (o : Order) :
  order_of req_body = Ok o -> get req_body "customer" = Ok (customer o).
Proof.
  unfold order_of. intros H.
  destruct (get req_body "customer"); [|discriminate].
  destruct (get req_body "items"); [|discriminate].
  destruct (get req_body "total"); [|discriminate].
  destruct (get req_body "orderDate"); [|discriminate].
  injection H as <-. reflexivity.
Qed.

Lemma order_of_items (req_body : value) (o : Order) :
  order_of req_body = Ok o -> get req_body "items" = Ok (items o).
Proof.
  unfold order_of. intros H.
  destruct (get req_body "customer"); [|discriminate].
  destruct (get req_body "items"); [|discriminate].
  destruct (get req_body "total"); [|discriminate].
  destruct (get req_body "orderDate"); [|discriminate].
  injection H as <-. reflexivity.
Qed.

Lemma order_of_defined (req_body c : value) :
  get req_body "customer" = Ok c ->
  exists o, order_of req_body = Ok o /\ customer o = c.
Proof.
  intros Hc. unfold order_of. rewrite Hc.
  destruct (get_defined _ _ "items" _ Hc) as [i ->].
  destruct (get_defined _ _ "total" _ Hc) as [t ->].
  destruct (get_defined _ _ "orderDate" _ Hc) as [d ->].
  eexists. split; reflexivity.
Qed.

(** The envelopes a validated request submits are the composed ones,
    whatever the transport then does with them. *)
Lemma handler_submits_composed (user : option string) (w : World)
    (req_body : value) (o : Order) (bm cm : MailOptions) :
  validated req_body ->
  order_of req_body = Ok o ->
  compose user o (orderNumber (Date_now w) (Math_random w)) = Ok (bm, cm) ->
  submitted (handler user w req_body) = [bm; cm].
Proof.
  intros Hv Ho Hc. destruct (validated_order _ Hv) as (o' & Ho' & Hm & Hn).
  assert (o' = o) as -> by congruence.
  rewrite handler_stages, Ho, Hm, Hn. cbv zeta. rewrite Hc.
  now destruct (Promise_all _ _ _) as [[]|].
Qed.

(** C5, as the code has it. A request body the handler can read the
    customer from (it is not [undefined] nor [null]) that has no
    customer, or whose customer has no name or an empty one, or no
    email or an empty one, is answered with the 400 response of the
    first rule, whatever its items are, and nothing is handed to the
    transport. *)
Theorem missing_customer_info_rejected (user : option string) (w : World)
    (req_body c : value) :
  get req_body "customer" = Ok c ->
  truthy c = false \/
  (exists n, get c "name" = Ok n /\ truthy n = false) \/
  (exists e, get c "email" = Ok e /\ truthy e = false) ->
  handler user w req_body =
    {| response := {| status := 400;
                      json := error_body "Missing required customer information" |};
       submitted := [];
       console_error := [] |}.
Proof.
  intros Hc H.
  destruct (order_of_defined _ _ Hc) as (o & Ho & <-).
  rewrite handler_stages, Ho.
  assert (missing_customer_information (customer o) = Ok true) as ->; [|reflexivity].
  unfold missing_customer_information.
  destruct (truthy (customer o)) eqn:Ht; [|reflexivity].
  destruct H as [H | [(n & Hn & Hf) | (e & He & Hf)]]; [discriminate | |].
  - rewrite Hn. cbv [mbind result_bind]. now rewrite Hf.
  - destruct (get_truthy _ "name" Ht) as [n ->]. cbv [mbind result_bind].
    destruct (truthy n); [|reflexivity]. cbn [negb].
    rewrite He. cbv [mbind result_bind mret result_ret]. now rewrite Hf.
Qed.

(** C6. A payload with a valid customer whose item list is missing
    (or otherwise falsy) or empty is answered with the 400 response of
    the second rule, and nothing is handed to the transport. *)
Theorem empty_order_rejected (user : option string) (w : World)
    (req_body c i : value) :
  get req_body "customer" = Ok c ->
  missing_customer_information c = Ok false ->
  get req_body "items" = Ok i ->
  truthy i = false \/ length_is_zero i = Ok true ->
  handler user w req_body =
    {| response := {| status := 400; json := error_body "No items in order" |};
       submitted := [];
       console_error := [] |}.
Proof.
  intros Hc Hm Hi H.
  destruct (order_of_defined _ _ Hc) as (o & Ho & <-).
  pose proof (order_of_items _ _ Ho) as Hi'.
  assert (items o = i) as Hio by congruence.
  rewrite handler_stages, Ho, Hm, Hio.
  assert (no_items i = Ok true) as ->; [|reflexivity].
  unfold no_items. destruct H as [-> | H]; [reflexivity|].
  now destruct (truthy i).
Qed.

(** C2. When the transport rejects the business submission or the
    customer submission of a validated request, the answer is the 500
    response with the fixed generic message, and never the success
    response: the reason of the rejection is in no part of it. *)
Theorem dispatch_failure_is_generic (user : option string) (w : World)
    (req_body : value) :
  validated req_body ->
  (forall o bm cm,
     order_of req_body = Ok o ->
     compose user o (orderNumber (Date_now w) (Math_random w)) = Ok (bm, cm) ->
     sendMail w bm <> Delivered \/ sendMail w cm <> Delivered) ->
  response (handler user w req_body) =
    {| status := 500;
       json := error_body
         "Failed to submit order. Please try again or contact us directly." |} /\
  forall n, response (handler user w req_body) <> success n.
Proof.
  intros Hv Hsend. destruct (validated_order _ Hv) as (o & Ho & Hm & Hn).
  assert (response (handler user w req_body) = InternalError) as Hr.
  { rewrite handler_stages, Ho, Hm, Hn. cbv zeta.
    destruct (compose _ _ _) as [[bm cm]|e] eqn:Hc; [|reflexivity].
    destruct (Hsend _ _ _ Ho Hc) as [Hb | Hb];
      destruct (sendMail w bm), (sendMail w cm); try reflexivity; now destruct Hb. }
  split; [exact Hr|]. intros n. rewrite Hr. discriminate.
Qed.

(** C9. When both submissions of a validated request are delivered,
    the answer has status 200 and the body
    [{ success: true, orderNumber, message }] with the order number
    generated for the request. *)
Theorem both_delivered_success (user : option string) (w : World)
    (req_body : value) (o : Order) (bm cm : MailOptions) :
  validated req_body ->
  order_of req_body = Ok o ->
  compose user o (orderNumber (Date_now w) (Math_random w)) = Ok (bm, cm) ->
  sendMail w bm = Delivered ->
  sendMail w cm = Delivered ->
  handler user w req_body =
    {| response :=
         {| status := 200;
            json := VObj (<[ "success" := VBool true ]>
                         (<[ "orderNumber" :=
                               VStr (orderNumber (Date_now w) (Math_random w)) ]>
                         {[ "message" := VStr "Order submitted successfully" ]})) |};
       submitted := [bm; cm];
       console_error := [] |}.
Proof.
  intros Hv Ho Hc Hb Hcm. destruct (validated_order _ Hv) as (o' & Ho' & Hm & Hn).
  assert (o' = o) as -> by congruence.
  rewrite handler_stages, Ho, Hm, Hn. cbv zeta. now rewrite Hc, Hb, Hcm.
Qed.

End Intake.

(** ** The composer *)

Section Composer.
Context `{E : Engine}.

Lemma business_subject_number (o : Order) (n s : string) :
  business_subject o n = Ok s -> Infix n s.
Proof. unfold business_subject. intros H. binds H. injection H as <-. part. Qed.

Lemma business_text_number (o : Order) (n l s : string) :
  business_text o n l = Ok s -> Infix n s.
Proof. unfold business_text. intros H. binds H. injection H as <-. part. Qed.

Lemma business_html_number (o : Order) (n s : string) :
  business_html o n = Ok s -> Infix n s.
Proof. unfold business_html. intros H. binds H. injection H as <-. part. Qed.

Lemma customer_subject_number (n : string) : Infix n (customer_subject n).
Proof. unfold customer_subject. part. Qed.

Lemma customer_text_number (o : Order) (n l s : string) :
  customer_text o n l = Ok s -> Infix n s.
Proof. unfold customer_text. intros H. binds H. injection H as <-. part. Qed.

Lemma customer_html_number (o : Order) (n s : string) :
  customer_html o n = Ok s -> Infix n s.
Proof. unfold customer_html. intros H. binds H. injection H as <-. part. Qed.

(** The order number is in the subject and in both bodies of each of
    the two composed envelopes. *)
Lemma compose_number (user : option string) (o : Order) (n : string)
    (bm cm : MailOptions) :
  compose user o n = Ok (bm, cm) ->
  (Infix n (mail_subject bm) /\ Infix n (mail_text bm) /\ Infix n (mail_html bm)) /\
  (Infix n (mail_subject cm) /\ Infix n (mail_text cm) /\ Infix n (mail_html cm)).
Proof.
  unfold compose. intros H. binds H. injection H as <- <-.
  repeat match goal with
    | H : businessEmailOptions _ _ _ _ = Ok _ |- _ =>
        unfold businessEmailOptions in H; binds H; injection H as <-
    | H : customerEmailOptions _ _ _ _ = Ok _ |- _ =>
        unfold customerEmailOptions in H; binds H; injection H as <-
    end.
  cbn [mail_subject mail_text mail_html].
  repeat split;
    eauto using business_subject_number, business_text_number,
      business_html_number, customer_subject_number, customer_text_number,
      customer_html_number.
Qed.

Lemma success_orderNumber (n : string) :
  match json (success n) with
  | VObj m => m !! "orderNumber"
  | _ => None
  end = Some (VStr n).
Proof.
  cbn [json success]. now rewrite lookup_insert_ne, lookup_insert_eq.
Qed.

Lemma success_inj (n n' : string) : success n = success n' -> n = n'.
Proof.
  intros H. pose proof (success_orderNumber n) as Hn.
  rewrite H, success_orderNumber in Hn. congruence.
Qed.

(** C10. A request answered with the success response generated one
    order number, from one reading of the clock and one draw of the
    random source; the [orderNumber] of the response is that string,
    and it occurs in the subject, the plain-text body and the
    rich-text body of both envelopes submitted. *)
Theorem single_order_number (user : option string) (w : World)
    (req_body : value) (n : string) :
  response (handler user w req_body) = success n ->
  n = orderNumber (Date_now w) (Math_random w) /\
  exists bm cm,
    submitted (handler user w req_body) = [bm; cm] /\
    Infix n (mail_subject bm) /\ Infix n (mail_text bm) /\ Infix n (mail_html bm) /\
    Infix n (mail_subject cm) /\ Infix n (mail_text cm) /\ Infix n (mail_html cm).
Proof.
  rewrite handler_stages.
  destruct (order_of req_body) as [o|]; [|discriminate].
  destruct (missing_customer_information _) as [[|]|]; try discriminate.
  destruct (no_items _) as [[|]|]; try discriminate.
  cbv zeta.
  destruct (compose _ _ _) as [[bm cm]|] eqn:Hc; [|discriminate].
  destruct (Promise_all _ _ _) as [[]|]; [|discriminate].
  cbn [response answered submitted]. intros H. apply success_inj in H. subst n.
  split; [reflexivity|]. exists bm, cm. split; [reflexivity|].
  destruct (compose_number _ _ _ _ _ Hc) as [(? & ? & ?) (? & ? & ?)]. tauto.
Qed.

(** The two envelopes of a composed order: the business copy goes to
    the fixed business address and its subject shows the name of the
    customer and the total with two decimals; the customer copy goes
    to the email of the customer. Both are sent from the configured
    user. *)
Theorem envelope_contract (user : option string) (o : Order) (n : string)
    (bm cm : MailOptions) :
  compose user o n = Ok (bm, cm) ->
  mail_to bm = VStr "imageinboxe3@gmail.com" /\
  get (customer o) "email" = Ok (mail_to cm) /\
  mail_from bm = process_env user /\
  mail_from cm = process_env user /\
  exists name amount,
    print (customer o) "name" = Ok name /\
    toFixed2 (total o) = Ok amount /\
    Infix (" from " +:+ name) (mail_subject bm) /\
    Infix (" - $" +:+ amount) (mail_subject bm).
Proof.
  unfold compose. intros H. binds H. injection H as <- <-.
  repeat match goal with
    | H : businessEmailOptions _ _ _ _ = Ok _ |- _ =>
        unfold businessEmailOptions in H; binds H; injection H as <-
    | H : customerEmailOptions _ _ _ _ = Ok _ |- _ =>
        unfold customerEmailOptions in H; binds H; injection H as <-
    | H : business_subject _ _ = Ok _ |- _ =>
        unfold business_subject in H; binds H; injection H as <-
    end.
  cbn [mail_from mail_to mail_subject]. do 4 (split; [reflexivity|]).
  do 2 eexists. do 2 (split; [reflexivity|]). split.
  - apply (Infix_template_pair business_subject_1 _ [business_subject_0; n]).
  - apply (Infix_template_pair business_subject_2 _
             [business_subject_0; n; business_subject_1; _] []).
Qed.

End Composer.

(** ** When the composer succeeds *)

Section Totality.
Context `{E : Engine}.

(** Induction on a value, with the hypothesis on every element of an
    array. *)
Lemma value_ind_elems (P : value -> Prop) :
  P VUndefined -> P VNull -> (forall b, P (VBool b)) -> (forall n, P (VNum n)) ->
  (forall s, P (VStr s)) ->
  (forall elems, Forall P elems -> P (VArr elems)) ->
  (forall props, P (VObj props)) ->
  forall v, P v.
Proof.
  intros Hu Hn Hb Hnum Hs Ha Ho. fix IH 1.
  intros [| |b|n|s|elems|props];
    [exact Hu | exact Hn | apply Hb | apply Hnum | apply Hs | | apply Ho].
  apply Ha. induction elems as [|x l IHl]; constructor; [apply IH | exact IHl].
Qed.

Lemma join_elements_Ok (element : value -> result string) (l : list value) :
  (exists s, join_elements element l = Ok s) <->
  Forall (fun x => exists s, element x = Ok s) l.
Proof.
  induction l as [|x l IH]; [split; [constructor | eauto]|].
  rewrite Forall_cons, <- IH. destruct l as [|y l].
  - cbn [join_elements]. split; [intros H; split; eauto | tauto].
  - change (join_elements element (x :: y :: l))
      with (s ← element x; r ← join_elements element (y :: l);
            mret (s +:+ "," +:+ r)).
    cbv [mbind result_bind mret result_ret]. split.
    + intros [s H]. destruct (element x); [|discriminate].
      destruct (join_elements element (y :: l)); [|discriminate]. eauto.
    + intros [[s ->] [r ->]]. eauto.
Qed.

Lemma nesting_elems (elems : list value) (room : nat) :
  foldr (fun x d => Nat.max (nesting x) d) 0 elems <= room <->
  Forall (fun x => nesting x <= room) elems.
Proof.
  induction elems as [|x l IH]; cbn [foldr].
  - split; [constructor | lia].
  - rewrite Forall_cons, Nat.max_lub_iff, IH. tauto.
Qed.

(** With room for [room] nested arrays, [ToString] succeeds exactly on
    the plain values nested no deeper. *)
Lemma ToString_within_Ok (v : value) : forall room,
  (exists s, ToString_within v room = Ok s) <-> plain v = true /\ nesting v <= room.
Proof.
  induction v as [| |[]| | |elems IH|props] using value_ind_elems; intros room;
    try (cbn; split; [intros _; split; [reflexivity | lia] | eauto]; fail).
  - destruct room as [|room]; cbn [ToString_within plain nesting].
    + split; [intros [? ?]; discriminate | lia].
    + rewrite join_elements_Ok, <- Nat.succ_le_mono, nesting_elems.
      induction IH as [|x l Hx _ IHl].
      * split; [intros _; split; [reflexivity | constructor] | constructor].
      * rewrite !Forall_cons. cbn [forallb]. rewrite andb_true_iff, IHl.
        assert ((exists s, match x with
                           | VUndefined | VNull => Ok EmptyString
                           | _ => ToString_within x room
                           end = Ok s) <-> plain x = true /\ nesting x <= room) as ->.
        { destruct x; try apply Hx;
            (cbn; split; [intros _; split; [reflexivity | lia] | eauto]). }
        tauto.
  - cbn [ToString_within plain nesting]. destruct (props !! "toString").
    + split; [intros [? ?]; discriminate | intros [? _]; discriminate].
    + split; [intros _; split; [reflexivity | lia] | eauto].
Qed.

(** [printable] decides whether [ToString] succeeds. *)
Lemma printable_Ok (v : value) : printable v = true <-> exists s, ToString v = Ok s.
Proof.
  unfold printable, ToString. now rewrite ToString_within_Ok, andb_true_iff, Nat.leb_le.
Qed.

(** An array nested deeper than the stack has room for overflows it. *)
Lemma ToString_nest (d room : nat) :
  ToString_within (nest d) room = if d <? room then Ok EmptyString else Throw RangeError.
Proof.
  revert room. induction d as [|d IH]; intros [|room]; try reflexivity.
  cbn [nest ToString_within join_elements]. destruct d; apply IH.
Qed.

Lemma falsy_printable (v : value) : truthy v = false -> printable v = true.
Proof. destruct v; simpl; intros H; try discriminate; reflexivity. Qed.

Lemma is_number_Ok (v : value) : is_number v = true <-> exists s, toFixed2 v = Ok s.
Proof.
  destruct v; simpl; split; eauto; try discriminate; intros [? ?]; discriminate.
Qed.

Lemma print_Ok (v : value) (k : string) :
  has printable v k = true <-> exists s, print v k = Ok s.
Proof.
  unfold has, print. destruct (get v k) as [x|]; cbv [mbind result_bind].
  - apply printable_Ok.
  - split; [discriminate | intros [? ?]; discriminate].
Qed.

Lemma print_fixed_Ok (v : value) (k : string) :
  has is_number v k = true <-> exists s, print_fixed v k = Ok s.
Proof.
  unfold has, print_fixed. destruct (get v k) as [x|]; cbv [mbind result_bind].
  - apply is_number_Ok.
  - split; [discriminate | intros [? ?]; discriminate].
Qed.

Lemma print_or_Ok (v : value) (k marker : string) :
  has printable v k = true <-> exists s, print_or v k marker = Ok s.
Proof.
  unfold has, print_or, or_else. destruct (get v k) as [x|]; cbv [mbind result_bind].
  - destruct (truthy x) eqn:Ht; [apply printable_Ok|].
    rewrite (falsy_printable _ Ht). split; eauto.
  - split; [discriminate | intros [? ?]; discriminate].
Qed.

Lemma print_if_Ok (v : value) (k before after : string) :
  has printable v k = true <-> exists s, print_if v k before after = Ok s.
Proof.
  unfold has, print_if. destruct (get v k) as [x|]; cbv [mbind result_bind].
  - destruct (truthy x) eqn:Ht.
    + rewrite printable_Ok. cbv [mret result_ret].
      destruct (ToString x); split; eauto; intros [? ?]; discriminate.
    + rewrite (falsy_printable _ Ht). cbv [mret result_ret]. split; eauto.
  - split; [discriminate | intros [? ?]; discriminate].
Qed.

Lemma new_Date_Ok (v : value) :
  printable v = true <-> exists s, new_Date_toLocaleString v = Ok s.
Proof.
  unfold new_Date_toLocaleString. rewrite printable_Ok.
  destruct v as [| |[]| | | |]; cbn [ToPrimitive];
    try (cbn; split; eauto; fail);
    destruct (ToString _); cbv [fmap result_fmap]; split; eauto;
    intros [? ?]; discriminate.
Qed.

Lemma item_line_Ok (item : value) :
  well_formed_item item = true <-> exists s, item_line item = Ok s.
Proof.
  unfold well_formed_item, item_line.
  rewrite !andb_true_iff, !print_Ok, !print_fixed_Ok. split.
  - intros [[[[q ->] [n ->]] [p ->]] [s ->]]. eexists. reflexivity.
  - intros [s H].
    destruct (print item "quantity"); [|discriminate].
    destruct (print item "name"); [|discriminate].
    destruct (print_fixed item "price"); [|discriminate].
    destruct (print_fixed item "subtotal"); [|discriminate].
    eauto 10.
Qed.

Lemma item_row_Ok (r0 r1 r2 r3 r4 : string) (item : value) :
  well_formed_item item = true <-> exists s, item_row r0 r1 r2 r3 r4 item = Ok s.
Proof.
  unfold well_formed_item, item_row.
  rewrite !andb_true_iff, !print_Ok, !print_fixed_Ok. split.
  - intros [[[[q ->] [n ->]] [p ->]] [s ->]]. eexists. reflexivity.
  - intros [s H].
    destruct (print item "quantity"); [|discriminate].
    destruct (print item "name"); [|discriminate].
    destruct (print_fixed item "price"); [|discriminate].
    destruct (print_fixed item "subtotal"); [|discriminate].
    eauto 10.
Qed.

(** [items.map(f)] succeeds exactly on an array on whose elements [f]
    succeeds. *)
Lemma mapM_Ok {B} (f : value -> result B) (p : value -> bool) (l : list value) :
  (forall x, p x = true <-> exists y, f x = Ok y) ->
  forallb p l = true <-> exists ys, mapM f l = Ok ys.
Proof.
  intros Hf. induction l as [|x l IH]; cbn [forallb mapM].
  - split; eauto.
  - rewrite andb_true_iff, IH, Hf. cbv [mbind result_bind mret result_ret]. split.
    + intros [[y ->] [ys ->]]. eauto.
    + intros [ys H]. destruct (f x); [|discriminate].
      destruct (mapM f l); [|discriminate]. eauto.
Qed.

Lemma array_map_Ok {B} (f : value -> result B) (p : value -> bool) (v : value) :
  (forall x, p x = true <-> exists y, f x = Ok y) ->
  match v with VArr elems => forallb p elems | _ => false end = true <->
  exists ys, array_map f v = Ok ys.
Proof.
  intros Hf.
  destruct v; cbn [array_map]; try (split; [discriminate | intros [? ?]; discriminate]).
  now apply mapM_Ok.
Qed.

End Totality.

Section ComposerDomain.
Context `{E : Engine}.

Lemma well_formed_composes (user : option string) (o : Order) (n : string) :
  well_formed_order o = true -> exists bm cm, compose user o n = Ok (bm, cm).
Proof.
  unfold well_formed_order. rewrite !andb_true_iff.
  intros [[[[[[[[Hi Ht] Hd] Hn] He] Hs] Hp] Ha] Hsi].
  pose proof Hi as Hi'.
  apply (array_map_Ok item_line _ _ item_line_Ok) in Hi as [lines Hl].
  pose proof (proj1 (array_map_Ok _ _ _
    (item_row_Ok business_html_row_0 business_html_row_1 business_html_row_2
       business_html_row_3 business_html_row_4)) Hi') as [brows Hb].
  pose proof (proj1 (array_map_Ok _ _ _
    (item_row_Ok customer_html_row_0 customer_html_row_1 customer_html_row_2
       customer_html_row_3 customer_html_row_4)) Hi') as [crows Hc].
  apply is_number_Ok in Ht as [t Ht]. apply new_Date_Ok in Hd as [d Hd].
  pose proof (proj1 (print_Ok _ _) Hn) as [name Hname].
  pose proof (proj1 (print_Ok _ _) He) as [email Hemail].
  assert (exists x, get (customer o) "email" = Ok x) as [to Hto].
  { unfold has in He. destruct (get (customer o) "email"); [eauto | discriminate]. }
  pose proof (proj1 (print_or_Ok _ _ "N/A") Hs) as [s1 Hs1].
  pose proof (proj1 (print_or_Ok _ _ "N/A") Hp) as [p1 Hp1].
  pose proof (proj1 (print_or_Ok _ _ "N/A") Ha) as [a1 Ha1].
  pose proof (proj1 (print_or_Ok _ _ "None") Hsi) as [i1 Hi1].
  pose proof (proj1 (print_if_Ok _ _ business_html_studentName_0
    business_html_studentName_1) Hs) as [s2 Hs2].
  pose proof (proj1 (print_if_Ok _ _ business_html_phone_0
    business_html_phone_1) Hp) as [p2 Hp2].
  pose proof (proj1 (print_if_Ok _ _ business_html_address_0
    business_html_address_1) Ha) as [a2 Ha2].
  pose proof (proj1 (print_if_Ok _ _ business_html_specialInstructions_0
    business_html_specialInstructions_1) Hsi) as [i2 Hi2].
  unfold compose, itemsList, businessEmailOptions, customerEmailOptions,
    business_subject, business_text, business_html, customer_text, customer_html.
  rewrite Hl, Hb, Hc, Ht, Hd, Hname, Hemail, Hto, Hs1, Hp1, Ha1, Hi1, Hs2, Hp2,
    Ha2, Hi2.
  cbv [mbind result_bind mret result_ret fmap result_fmap]. eauto.
Qed.

Lemma composes_well_formed (user : option string) (o : Order) (n : string)
    (bm cm : MailOptions) :
  compose user o n = Ok (bm, cm) -> well_formed_order o = true.
Proof.
  unfold compose. intros H. binds H.
  repeat match goal with
    | H : itemsList _ = Ok _ |- _ => unfold itemsList in H; binds H
    | H : businessEmailOptions _ _ _ _ = Ok _ |- _ =>
        unfold businessEmailOptions in H; binds H
    | H : business_text _ _ _ = Ok _ |- _ => unfold business_text in H; binds H
    end.
  unfold well_formed_order. rewrite !andb_true_iff. repeat split.
  - apply (array_map_Ok item_line _ _ item_line_Ok). eauto.
  - apply is_number_Ok. eauto.
  - apply new_Date_Ok. eauto.
  - apply print_Ok. eauto.
  - apply print_Ok. eauto.
  - apply (print_or_Ok _ _ "N/A"). eauto.
  - apply (print_or_Ok _ _ "N/A"). eauto.
  - apply (print_or_Ok _ _ "N/A"). eauto.
  - apply (print_or_Ok _ _ "None"). eauto.
Qed.

(** C1, as the code has it. For a validated payload the composer
    renders the four bodies and the two envelopes, and the handler
    hands them to the transport, exactly when the total is a number,
    the items are an array whose elements each have a numeric price
    and a numeric subtotal and a quantity and a name that convert to a
    string, and the order date and the six customer fields convert to
    a string; the quantity, the name of an item, the order date and
    the optional customer fields may be absent. A value converts to a
    string when it is not, and has not in it, an object that owns a
    [toString] property, and its arrays are nested no deeper than the
    call stack of the engine has room for. For any other validated
    payload the composer throws, and the [catch] answers with the
    generic failure with nothing submitted. *)
Theorem composer_total_on_well_formed (user : option string) (w : World)
    (req_body : value) (o : Order) :
  validated req_body ->
  order_of req_body = Ok o ->
  let n := orderNumber (Date_now w) (Math_random w) in
  if well_formed_order o
  then exists bm cm, compose user o n = Ok (bm, cm) /\
         submitted (handler user w req_body) = [bm; cm]
  else exists e, compose user o n = Throw e /\
         handler user w req_body = failed e [].
Proof.
  intros Hv Ho n. destruct (well_formed_order o) eqn:Hw.
  - destruct (well_formed_composes user o n Hw) as (bm & cm & Hc).
    exists bm, cm. split; [exact Hc|].
    exact (handler_submits_composed user w req_body o bm cm Hv Ho Hc).
  - destruct (validated_order _ Hv) as (o' & Ho' & Hm & Hn).
    assert (o' = o) as -> by congruence.
    rewrite handler_stages, Ho, Hm, Hn. cbv zeta. fold n.
    destruct (compose user o n) as [[bm cm]|e] eqn:Hc; [|eauto].
    apply composes_well_formed in Hc. congruence.
Qed.

End ComposerDomain.

(** ** The optional fields in the two business bodies *)

Section OptionalFields.
Context `{E : Engine}.

(** Two parts of a template that follow each other occur side by
    side in its text. *)
Lemma Infix_template_adjacent (parts : list string) (i : nat) (x y : string) :
  parts !! i = Some x -> parts !! S i = Some y ->
  Infix (x +:+ y) (template parts).
Proof.
  revert i. induction parts as [|p parts IH]; intros i; [discriminate|].
  destruct i as [|i]; cbn [lookup list_lookup].
  - intros [= ->]. destruct parts as [|q parts]; [discriminate|].
    intros [= ->]. apply (Infix_template_pair x y [] parts).
  - intros Hx Hy. unfold template; fold template.
    apply Infix_append_r. now apply (IH i).
Qed.

Lemma Infix_label (chunk before label s : string) :
  chunk = before +:+ label -> Infix (label +:+ s) (chunk +:+ s).
Proof.
  intros ->. exists before, EmptyString.
  now rewrite append_nil_r, append_assoc.
Qed.

(** Each literal part before an optional field ends with its label. *)
Lemma text_before_label (f : optional_field) :
  exists before, text_before f = before +:+ text_label f.
Proof.
  exists (substring 0 (String.length (text_before f) - String.length (text_label f))
            (text_before f)).
  destruct f; vm_compute; reflexivity.
Qed.

Lemma get_delete_ne (c : value) (k k' : string) :
  k <> k' -> get (delete_property k c) k' = get c k'.
Proof.
  intros Hne. destruct c; try reflexivity.
  cbn [delete_property get]. now rewrite lookup_delete_ne.
Qed.

Lemma get_delete_eq (c v : value) (k : string) :
  get c k = Ok v -> get (delete_property k c) k = Ok VUndefined.
Proof.
  destruct c; cbn [delete_property get]; try discriminate; try reflexivity.
  intros _. now rewrite lookup_delete_eq.
Qed.

Lemma print_delete_ne (c : value) (k k' : string) :
  k <> k' -> print (delete_property k c) k' = print c k'.
Proof. intros H. unfold print. now rewrite get_delete_ne. Qed.

Lemma print_or_delete_ne (c : value) (k k' marker : string) :
  k <> k' -> print_or (delete_property k c) k' marker = print_or c k' marker.
Proof. intros H. unfold print_or. now rewrite get_delete_ne. Qed.

Lemma print_if_delete_ne (c : value) (k k' before after : string) :
  k <> k' ->
  print_if (delete_property k c) k' before after = print_if c k' before after.
Proof. intros H. unfold print_if. now rewrite get_delete_ne. Qed.

(** A field that is there but falsy prints as one that is not
    there. *)
Lemma print_or_falsy (c v : value) (k marker : string) :
  get c k = Ok v -> truthy v = false -> print_or c k marker = Ok marker.
Proof.
  intros Hg Hf. unfold print_or, or_else. rewrite Hg.
  cbv [mbind result_bind]. now rewrite Hf.
Qed.

Lemma print_if_falsy (c v : value) (k before after : string) :
  get c k = Ok v -> truthy v = false ->
  print_if c k before after = Ok EmptyString.
Proof.
  intros Hg Hf. unfold print_if. rewrite Hg.
  cbv [mbind result_bind]. now rewrite Hf.
Qed.

Lemma print_or_truthy (c v : value) (k marker s : string) :
  get c k = Ok v -> truthy v = true -> print_or c k marker = Ok s ->
  ToString v = Ok s.
Proof.
  intros Hg Ht. unfold print_or, or_else. rewrite Hg.
  cbv [mbind result_bind]. now rewrite Ht.
Qed.

Lemma print_if_truthy (c v : value) (k before after s : string) :
  get c k = Ok v -> truthy v = true -> print_if c k before after = Ok s ->
  exists p, ToString v = Ok p /\ s = template [before; p; after].
Proof.
  intros Hg Ht. unfold print_if. rewrite Hg.
  cbv [mbind result_bind mret result_ret]. rewrite Ht.
  destruct (ToString v) as [p|]; [|discriminate]. intros [= <-]. eauto.
Qed.

Lemma template_3 (a b c : string) : template [a; b; c] = a +:+ b +:+ c.
Proof. unfold template. now rewrite append_nil_r. Qed.

(** The plain-text body prints, after the label of the field, what
    [print_or] gives for it. *)
Lemma business_text_field (o : Order) (n l t : string) (f : optional_field) :
  business_text o n l = Ok t ->
  exists s, print_or (customer o) (field_key f) (absence_marker f) = Ok s /\
            Infix (text_label f +:+ s) t.
Proof.
  unfold business_text. intros H. binds H. injection H as <-.
  destruct (text_before_label f) as [before Hb].
  destruct f; cbn [field_key absence_marker]; eexists; (split; [eassumption|]);
    (eapply Infix_trans; [eapply Infix_label, Hb|]); cbn [text_before].
  - eapply (Infix_template_adjacent _ 4); reflexivity.
  - eapply (Infix_template_adjacent _ 10); reflexivity.
  - eapply (Infix_template_adjacent _ 12); reflexivity.
  - eapply (Infix_template_adjacent _ 18); reflexivity.
Qed.

(** The rich-text body has, as one of its parts, what [print_if]
    gives for the field. *)
Lemma business_html_field (o : Order) (n h : string) (f : optional_field) :
  business_html o n = Ok h ->
  exists s, print_if (customer o) (field_key f) (html_before f) (html_after f) = Ok s /\
            Infix s h.
Proof.
  unfold business_html. intros H. binds H. injection H as <-.
  destruct f; cbn [field_key html_before html_after]; eexists;
    (split; [eassumption|]); part.
Qed.

(** Neither body changes when a falsy field is taken away. *)
Lemma business_text_without (o : Order) (n l : string) (f : optional_field) (v : value) :
  get (customer o) (field_key f) = Ok v -> truthy v = false ->
  business_text (without f o) n l = business_text o n l.
Proof.
  intros Hg Hf. pose proof (get_delete_eq _ _ _ Hg) as Hd.
  unfold business_text, without. cbn [customer items total orderDate].
  destruct f; cbn [field_key] in *;
    rewrite (print_or_falsy _ _ _ _ Hd eq_refl);
    rewrite ?print_delete_ne, ?print_or_delete_ne by discriminate;
    rewrite (print_or_falsy _ _ _ _ Hg Hf); reflexivity.
Qed.

Lemma business_html_without (o : Order) (n : string) (f : optional_field) (v : value) :
  get (customer o) (field_key f) = Ok v -> truthy v = false ->
  business_html (without f o) n = business_html o n.
Proof.
  intros Hg Hf. pose proof (get_delete_eq _ _ _ Hg) as Hd.
  unfold business_html, without. cbn [customer items total orderDate].
  destruct f; cbn [field_key] in *;
    rewrite (print_if_falsy _ _ _ _ _ Hd eq_refl);
    rewrite ?print_delete_ne, ?print_if_delete_ne by discriminate;
    rewrite (print_if_falsy _ _ _ _ _ Hg Hf); reflexivity.
Qed.

Lemma template_slot (before after : list string) (x : string) :
  template (before ++ x :: after) = template before +:+ x +:+ template after.
Proof.
  induction before as [|p before IH].
  - change (x +:+ template after = EmptyString +:+ x +:+ template after).
    now rewrite append_nil_l.
  - change (p +:+ template (before ++ x :: after) =
            (p +:+ template before) +:+ x +:+ template after).
    now rewrite IH, append_assoc.
Qed.

Lemma print_same (c c' : value) (k : string) :
  get c' k = get c k -> print c' k = print c k.
Proof. unfold print. now intros ->. Qed.

Lemma print_if_same (c c' : value) (k before after : string) :
  get c' k = get c k -> print_if c' k before after = print_if c k before after.
Proof. unfold print_if. now intros ->. Qed.

Lemma print_if_present (c v : value) (k before after s : string) :
  get c k = Ok v -> truthy v = true -> ToString v = Ok s ->
  print_if c k before after = Ok (template [before; s; after]).
Proof.
  intros Hg Ht Hs. unfold print_if. rewrite Hg.
  cbv [mbind result_bind mret result_ret]. now rewrite Ht, Hs.
Qed.

(** The rich-text body of an order with a falsy field is around the
    place of the field what it is for the same order with the field
    there, and has nothing at that place. *)
Lemma business_html_omits (o : Order) (n h : string) (f : optional_field) (v : value) :
  business_html o n = Ok h ->
  get (customer o) (field_key f) = Ok v -> truthy v = false ->
  exists pre post, h = pre +:+ post /\
    forall o' v' s',
      same_but f o o' ->
      get (customer o') (field_key f) = Ok v' -> truthy v' = true ->
      ToString v' = Ok s' ->
      business_html o' n =
        Ok (pre +:+ html_before f +:+ s' +:+ html_after f +:+ post).
Proof.
  intros Hh Hg Hf.
  pose proof (print_if_falsy _ _ _ (html_before f) (html_after f) Hg Hf) as Hp.
  unfold business_html in Hh.
  destruct f; cbn [field_key html_before html_after] in *; rewrite Hp in Hh;
    binds Hh; injection Hh as <-.
  all: match goal with
       | |- exists pre post, template ?l = _ /\ _ =>
           let i := match l with
                    | context [business_html_2 :: EmptyString :: _] => constr:(5)
                    | context [business_html_5 :: EmptyString :: _] => constr:(11)
                    | context [business_html_6 :: EmptyString :: _] => constr:(13)
                    | context [business_html_9 :: EmptyString :: _] => constr:(19)
                    end in
           let l1 := eval cbn in (take i l) in
           let l2 := eval cbn in (drop (S i) l) in
           exists (template l1), (template l2); split;
           [ etransitivity;
             [exact (template_slot l1 l2 EmptyString) | now rewrite append_nil_l]
           | intros o' v' s' (Hi & Ht & Hd & Hk) Hg' Hv' Hs'; cbn [field_key] in Hk;
             unfold business_html;
             rewrite Hi, Ht, Hd, (print_if_present _ _ _ _ _ _ Hg' Hv' Hs');
             rewrite ?(print_same (customer o) (customer o') "name"),
               ?(print_same (customer o) (customer o') "email"),
               ?(print_if_same (customer o) (customer o') "studentName"),
               ?(print_if_same (customer o) (customer o') "phone"),
               ?(print_if_same (customer o) (customer o') "address"),
               ?(print_if_same (customer o) (customer o') "specialInstructions")
               by (apply Hk; discriminate);
             repeat match goal with H : _ = Ok _ |- _ => rewrite H end;
             cbv [mbind result_bind mret result_ret]; f_equal;
             etransitivity; [exact (template_slot l1 l2 _)|];
             now rewrite template_3, !append_assoc ]
       end.
Qed.

(** C4, as the code has it. In the two bodies of the business message
    of an order, an optional customer field that is there (truthy) is
    printed in both, after its label in the plain text and inside its
    markup in the rich text. One that is absent or empty (falsy) is
    printed as the marker after its label in the plain text, and is
    left out of the rich text: the rich text is two texts one after the
    other, between which any order that differs in this field alone,
    and has it, has the markup of the field around its value. Both
    bodies are then those of the order without the field. *)
Theorem optional_field_rendering (o : Order) (n l t h : string)
    (f : optional_field) (v : value) :
  business_text o n l = Ok t ->
  business_html o n = Ok h ->
  get (customer o) (field_key f) = Ok v ->
  if truthy v
  then exists s, ToString v = Ok s /\
         Infix (text_label f +:+ s) t /\
         Infix (html_before f +:+ s +:+ html_after f) h
  else Infix (text_label f +:+ absence_marker f) t /\
       (exists pre post, h = pre +:+ post /\
          forall o' v' s',
            same_but f o o' ->
            get (customer o') (field_key f) = Ok v' -> truthy v' = true ->
            ToString v' = Ok s' ->
            business_html o' n =
              Ok (pre +:+ html_before f +:+ s' +:+ html_after f +:+ post)) /\
       business_text (without f o) n l = Ok t /\
       business_html (without f o) n = Ok h.
Proof.
  intros Ht Hh Hg.
  destruct (business_text_field _ _ _ _ f Ht) as (s & Hs & HIt).
  destruct (business_html_field _ _ _ f Hh) as (s' & Hs' & HIh).
  destruct (truthy v) eqn:Hv.
  - pose proof (print_or_truthy _ _ _ _ _ Hg Hv Hs) as Hp.
    destruct (print_if_truthy _ _ _ _ _ _ Hg Hv Hs') as (p & Hp' & ->).
    assert (p = s) as -> by congruence.
    exists s. rewrite template_3 in HIh. auto.
  - rewrite (print_or_falsy _ _ _ _ Hg Hv) in Hs. injection Hs as <-.
    split; [exact HIt|]. split; [exact (business_html_omits _ _ _ _ _ Hh Hg Hv)|].
    rewrite (business_text_without _ _ _ _ _ Hg Hv),
      (business_html_without _ _ _ _ Hg Hv). auto.
Qed.

End OptionalFields.

(** C4, as the spec states it, fails on the order of the scenario: its
    customer has no phone; the plain text prints the marker after the
    label, the rich text has neither the label nor the marker. *)
Lemma absent_phone_treated_differently :
  business_text example.order example.order_number example.lines = Ok example.text /\
  business_html example.order example.order_number = Ok example.html /\
  get (customer example.order) "phone" = Ok VUndefined /\
  Infix "Phone: N/A" example.text /\
  ~ same_absence_treatment "Phone" "N/A" example.text example.html.
Proof.
  split; [vm_compute; reflexivity|]. split; [vm_compute; reflexivity|].
  split; [vm_compute; reflexivity|].
  split; [apply includes_spec; vm_compute; reflexivity|].
  intros [[_ H] | [H _]].
  - revert H. apply not_includes. vm_compute. reflexivity.
  - apply H. apply includes_spec. vm_compute. reflexivity.
Qed.

(** ** The order number *)

Lemma length_toUpperCase (s : string) : String.length (toUpperCase s) = String.length s.
Proof. induction s as [|c s IH]; simpl; [reflexivity | now rewrite IH]. Qed.

Lemma length_substring_0 (m : nat) (s : string) :
  String.length (substring 0 m s) = Nat.min m (String.length s).
Proof.
  revert s. induction m as [|m IH]; intros [|c s]; simpl; try reflexivity.
  now rewrite IH.
Qed.

Lemma length_string_of_list_ascii (l : list ascii) :
  String.length (string_of_list_ascii l) = length l.
Proof. induction l as [|c l IH]; simpl; [reflexivity | now rewrite IH]. Qed.

(** What [substr(2, 9)] keeps of the numeral: its first nine digits
    after the point. *)
Lemma substr_numeral (r : random_value) :
  substr 2 9 (Number_toString36 r) = substring 0 9 (string_of_list_ascii (map digit36 r)).
Proof. destruct r as [|d r]; reflexivity. Qed.

(** The suffix has as many characters as the numeral has digits after
    the point, up to nine. *)
Lemma suffix_length (r : random_value) :
  String.length (suffix r) = Nat.min 9 (length r).
Proof.
  unfold suffix.
  now rewrite length_toUpperCase, substr_numeral, length_substring_0,
    length_string_of_list_ascii, length_map.
Qed.

Lemma digit36_upper (d : nat) :
  d < 36 -> upper_base36_char (ascii_toUpperCase (digit36 d)) = true.
Proof.
  intros H. do 36 (destruct d as [|d]; [vm_compute; reflexivity|]). lia.
Qed.

Lemma list_ascii_toUpperCase (s : string) :
  list_ascii_of_string (toUpperCase s) = map ascii_toUpperCase (list_ascii_of_string s).
Proof. induction s as [|c s IH]; simpl; [reflexivity | now rewrite IH]. Qed.

Lemma list_ascii_substring_0 (m : nat) (s : string) :
  list_ascii_of_string (substring 0 m s) = take m (list_ascii_of_string s).
Proof.
  revert s. induction m as [|m IH]; intros [|c s]; simpl; try reflexivity.
  now rewrite IH.
Qed.

(** Every character of the suffix is a digit or a capital letter. *)
Lemma suffix_chars (r : random_value) :
  base36 r -> forallb upper_base36_char (list_ascii_of_string (suffix r)) = true.
Proof.
  intros Hr. unfold suffix.
  rewrite list_ascii_toUpperCase, substr_numeral, list_ascii_substring_0,
    list_ascii_of_string_of_list_ascii.
  apply forallb_forall. intros c Hc. apply in_map_iff in Hc as (c' & <- & Hc').
  apply list_elem_of_In, elem_of_take in Hc' as (i & Hi & _).
  apply list_lookup_fmap_Some in Hi as (d & -> & Hd).
  apply digit36_upper. unfold base36 in Hr. rewrite Forall_lookup in Hr. eauto.
Qed.

(** The format holds when the numeral of the random value has at least
    nine digits after the point, and only then. *)
Lemma suffix_well_formed (r : random_value) :
  base36 r -> well_formed_suffix (suffix r) = (9 <=? length r)%nat.
Proof.
  intros Hr. unfold well_formed_suffix.
  rewrite suffix_length, (suffix_chars r Hr), andb_true_r.
  destruct (Nat.leb_spec 9 (length r)) as [H|H].
  - apply Nat.eqb_eq. lia.
  - apply Nat.eqb_neq. lia.
Qed.

(** C3. The order number generated at the clock value 1700000000000
    from the random value one half: its suffix is the one character
    [I], not nine characters. *)
Theorem short_random_suffix :
  base36 [18] /\
  Number_toString36 [18] = "0.i" /\
  orderNumber 1700000000000 [18] = "E3-1700000000000-I" /\
  well_formed_suffix (suffix [18]) = false.
Proof.
  split; [repeat constructor; lia|]. repeat split; vm_compute; reflexivity.
Qed.

(** ** The rate gate *)

Section RateGate.
Context `{E : Engine}.

Local Open Scope Z_scope.

(** While the window of [client] stays open, its attempts are counted
    on from [k]; the requests of the other clients do not touch its
    counter. *)
Lemma serve_in_window (user : option string) (client : string) (T : Z)
    (reqs : list Request) :
  Forall (fun r => ip r = client -> arrival r < T) reqs ->
  forall (store : gmap string limiter.Window) (k : nat),
  store !! client = Some {| limiter.totalHits := k; limiter.resetTime := T |} ->
  attempts_of client (serve user store reqs) =
    expected user k (filter (fun r => ip r = client) reqs).
Proof.
  unfold attempts_of.
  induction 1 as [|req reqs Hreq _ IH]; intros store k Hs; [reflexivity|].
  cbn [serve]. unfold post_submit_order, limiter.check.
  rewrite !filter_cons. cbn [fst]. destruct (decide (ip req = client)) as [Hip|Hip].
  - assert (limiter.increment store (ip req) (arrival req) =
            {| limiter.totalHits := S k; limiter.resetTime := T |}) as ->.
    { unfold limiter.increment. rewrite Hip, Hs. cbn.
      destruct (Z.ltb_spec (arrival req) T); [reflexivity|]. specialize (Hreq Hip). lia. }
    cbn [expected limiter.totalHits]. f_equal.
    apply IH. rewrite Hip. apply lookup_insert_eq.
  - apply IH. now rewrite lookup_insert_ne.
Qed.

(** Until the first attempt of [client], the requests of the others
    leave its counter as it is. *)
Lemma serve_from_first (user : option string) (client : string)
    (reqs : list Request) :
  forall (store : gmap string limiter.Window) (first : Request) (rest : list Request),
  filter (fun r => ip r = client) reqs = first :: rest ->
  limiter.open store client (arrival first) = false ->
  Forall (fun r => arrival r < arrival first + limiter.windowMs) rest ->
  attempts_of client (serve user store reqs) = expected user 0 (first :: rest).
Proof.
  unfold attempts_of.
  induction reqs as [|req reqs IH]; intros store first rest Hf Ho Hw; [discriminate|].
  cbn [serve]. unfold post_submit_order, limiter.check.
  rewrite filter_cons in Hf. rewrite filter_cons. cbn [fst].
  destruct (decide (ip req = client)) as [Hip|Hip].
  - injection Hf as -> Hf.
    assert (limiter.increment store (ip first) (arrival first) =
            {| limiter.totalHits := 1;
               limiter.resetTime := arrival first + limiter.windowMs |}) as ->.
    { unfold limiter.increment. unfold limiter.open in Ho. rewrite Hip.
      destruct (store !! client); [now rewrite Ho | reflexivity]. }
    cbn [expected limiter.totalHits]. f_equal. rewrite <- Hf.
    apply (serve_in_window user client (arrival first + limiter.windowMs)).
    + rewrite Forall_forall. intros r Hr Hipr.
      rewrite Forall_forall in Hw. apply Hw. rewrite <- Hf.
      apply list_elem_of_filter. split; assumption.
    + rewrite Hip. apply lookup_insert_eq.
  - apply IH; [exact Hf | | exact Hw].
    unfold limiter.open. now rewrite lookup_insert_ne.
Qed.

Lemma expected_lookup (user : option string) (reqs : list Request) :
  forall (k i : nat) (r : Request),
  reqs !! i = Some r ->
  expected user k reqs !! i =
    Some (r, if bool_decide (k + i < 5)%nat
             then handler user (world r) (body r)
             else rejected).
Proof.
  induction reqs as [|req reqs IH]; intros k i r; [discriminate|].
  destruct i as [|i]; cbn [lookup list_lookup expected].
  - intros [= ->]. do 2 f_equal. unfold limiter.max.
    destruct (Nat.leb_spec (S k) 5); case_bool_decide; (reflexivity || lia).
  - intros Hr. replace (k + S i)%nat with (S k + i)%nat by lia.
    exact (IH (S k) i r Hr).
Qed.

(** C8. Among the requests the server handles, take the attempts of
    one client identity, the first arriving when the client has no
    window open and the others before that window ends. Whatever the
    other clients send in between, the attempts numbered 1 to 5 get
    the outcome of the handler, and every later one, the sixth first,
    gets the 429 response of the gate with nothing validated, composed
    or submitted. *)
Theorem sixth_attempt_rejected (user : option string)
    (store : gmap string limiter.Window) (client : string)
    (reqs : list Request) (first : Request) (rest : list Request) :
  filter (fun r => ip r = client) reqs = first :: rest ->
  limiter.open store client (arrival first) = false ->
  Forall (fun r => arrival r < arrival first + limiter.windowMs) rest ->
  forall (i : nat) (r : Request),
  (first :: rest) !! i = Some r ->
  attempts_of client (serve user store reqs) !! i =
    Some (r, if bool_decide (i < 5)%nat
             then handler user (world r) (body r)
             else {| response :=
                       {| status := 429;
                          json := error_body
                            "Too many orders submitted, please try again later." |};
                     submitted := [];
                     console_error := [] |}).
Proof.
  intros Hf Ho Hw i r Hr.
  rewrite (serve_from_first user client reqs store first rest Hf Ho Hw).
  apply (expected_lookup user (first :: rest) 0 i r Hr).
Qed.

End RateGate.

(** ** What the handler throws and answers *)

Section Outcomes.
Context `{E : Engine}.

Lemma only_Ok {A} (a : A) : only_engine_error (Ok a).
Proof. intros e H. discriminate. Qed.

Lemma only_Throw {A} : only_engine_error (A := A) (Throw TypeError).
Proof. intros e [= <-]. now left. Qed.

Lemma only_overflow {A} : only_engine_error (A := A) (Throw RangeError).
Proof. intros e [= <-]. now right. Qed.

Lemma only_bind {A B} (m : result A) (f : A -> result B) :
  only_engine_error m -> (forall a, only_engine_error (f a)) ->
  only_engine_error (m ≫= f).
Proof.
  intros Hm Hf e. destruct m as [a|e']; cbv [mbind result_bind].
  - apply Hf.
  - intros [= <-]. now apply Hm.
Qed.

Lemma only_fmap {A B} (m : result A) (f : A -> B) :
  only_engine_error m -> only_engine_error (f <$> m).
Proof.
  intros Hm e. destruct m as [a|e']; cbv [fmap result_fmap]; [discriminate|].
  intros [= <-]. now apply Hm.
Qed.

Lemma only_get (v : value) (k : string) : only_engine_error (get v k).
Proof. destruct v; (apply only_Ok || apply only_Throw). Qed.

Lemma only_length_is_zero (v : value) : only_engine_error (length_is_zero v).
Proof. destruct v; (apply only_Ok || apply only_Throw). Qed.

Lemma only_toFixed2 (v : value) : only_engine_error (toFixed2 v).
Proof. destruct v; (apply only_Ok || apply only_Throw). Qed.

Lemma only_join_elements (element : value -> result string) (l : list value) :
  Forall (fun x => only_engine_error (element x)) l ->
  only_engine_error (join_elements element l).
Proof.
  induction 1 as [|x l Hx Hl IH]; [apply only_Ok|].
  destruct l as [|y l]; [exact Hx|].
  change (join_elements element (x :: y :: l))
    with (s ← element x; r ← join_elements element (y :: l);
          mret (s +:+ "," +:+ r)).
  apply only_bind; [exact Hx|]. intros s.
  apply only_bind; [exact IH|]. intros r. apply only_Ok.
Qed.

Lemma only_ToString_within (v : value) :
  forall room, only_engine_error (ToString_within v room).
Proof.
  induction v as [| |[]| | |elems IH|props] using value_ind_elems; intros room;
    try apply only_Ok.
  - destruct room as [|room]; cbn [ToString_within]; [apply only_overflow|].
    apply only_join_elements.
    eapply Forall_impl; [exact IH|]. intros x Hx.
    destruct x; (apply only_Ok || apply Hx).
  - cbn [ToString_within].
    destruct (props !! "toString"); (apply only_Ok || apply only_Throw).
Qed.

Lemma only_ToString (v : value) : only_engine_error (ToString v).
Proof. apply only_ToString_within. Qed.

Lemma only_mapM {B} (f : value -> result B) (l : list value) :
  (forall x, only_engine_error (f x)) -> only_engine_error (mapM f l).
Proof.
  intros Hf. induction l as [|x l IH]; cbn [mapM]; [apply only_Ok|].
  apply only_bind; [apply Hf|]. intros y.
  apply only_bind; [exact IH|]. intros ys. apply only_Ok.
Qed.

Lemma only_array_map {B} (f : value -> result B) (v : value) :
  (forall x, only_engine_error (f x)) -> only_engine_error (array_map f v).
Proof.
  intros Hf. destruct v; try apply only_Throw. now apply only_mapM.
Qed.

End Outcomes.

Create HintDb throws.
#[global] Hint Resolve only_Ok only_Throw only_get only_length_is_zero
  only_toFixed2 only_ToString : throws.

(** Every step of a chain of binds throws nothing but an error of the
    engine. *)
Ltac throws :=
  repeat first
    [ solve [auto with throws]
    | apply only_bind; [|intros ?]
    | apply only_fmap
    | apply only_array_map; intros ?
    | match goal with |- only_engine_error (if ?b then _ else _) => destruct b end ].

Section Outcomes2.
Context `{E : Engine}.

Lemma only_new_Date (v : value) : only_engine_error (new_Date_toLocaleString v).
Proof.
  unfold new_Date_toLocaleString. apply only_fmap.
  destruct v; cbn [ToPrimitive]; throws.
Qed.

Lemma only_print (v : value) (k : string) : only_engine_error (print v k).
Proof. unfold print. throws. Qed.

Lemma only_print_or (v : value) (k marker : string) :
  only_engine_error (print_or v k marker).
Proof. unfold print_or, or_else. throws. Qed.

Lemma only_print_if (v : value) (k before after : string) :
  only_engine_error (print_if v k before after).
Proof. unfold print_if. throws. Qed.

Lemma only_print_fixed (v : value) (k : string) : only_engine_error (print_fixed v k).
Proof. unfold print_fixed. throws. Qed.

#[local] Hint Resolve only_new_Date only_print only_print_or only_print_if
  only_print_fixed : throws.

Lemma only_item_line (item : value) : only_engine_error (item_line item).
Proof. unfold item_line. throws. Qed.

Lemma only_item_row (r0 r1 r2 r3 r4 : string) (item : value) :
  only_engine_error (item_row r0 r1 r2 r3 r4 item).
Proof. unfold item_row. throws. Qed.

#[local] Hint Resolve only_item_line only_item_row : throws.

(** The composer throws nothing but a [TypeError] or a [RangeError]. *)
Lemma only_compose (user : option string) (o : Order) (n : string) :
  only_engine_error (compose user o n).
Proof.
  unfold compose, itemsList, businessEmailOptions, customerEmailOptions,
    business_subject, business_text, business_html, customer_text, customer_html.
  throws.
Qed.

Lemma only_order_of (req_body : value) : only_engine_error (order_of req_body).
Proof. unfold order_of. throws. Qed.

(** The two rules of the validator never throw. *)
Lemma missing_customer_information_defined (c : value) :
  exists b, missing_customer_information c = Ok b.
Proof.
  unfold missing_customer_information.
  destruct (truthy c) eqn:Hc; [|eauto]. cbn [negb].
  destruct (get_truthy c "name" Hc) as [n ->]. cbv [mbind result_bind].
  destruct (truthy n); [|eauto]. cbn [negb].
  destruct (get_truthy c "email" Hc) as [e ->]. eauto.
Qed.

Lemma no_items_defined (i : value) : exists b, no_items i = Ok b.
Proof.
  unfold no_items. destruct (truthy i) eqn:Hi; [|eauto]. cbn [negb].
  destruct i; try discriminate; cbn [length_is_zero]; eauto.
Qed.

(** X3. The handler has six outcomes and no other. A payload the
    validator refuses is answered with its 400 response, with nothing
    submitted and nothing logged. An exception before the dispatch is
    a [TypeError], or the [RangeError] of a printed value nested deeper
    than the call stack has room for: it is logged, the answer is the
    generic failure and nothing has been submitted. After the
    composition both envelopes are submitted, and the outcome is the
    generic failure with the reason of the transport logged, or the
    success response with nothing logged. *)
Theorem handler_outcomes (user : option string) (w : World) (req_body : value) :
  handler user w req_body = answered MissingCustomerInfo [] \/
  handler user w req_body = answered EmptyOrder [] \/
  handler user w req_body = failed TypeError [] \/
  handler user w req_body = failed RangeError [] \/
  exists o bm cm,
    order_of req_body = Ok o /\
    compose user o (orderNumber (Date_now w) (Math_random w)) = Ok (bm, cm) /\
    ((exists reason, handler user w req_body = failed (SendError reason) [bm; cm]) \/
     handler user w req_body =
       answered (success (orderNumber (Date_now w) (Math_random w))) [bm; cm]).
Proof.
  rewrite handler_stages.
  destruct (order_of req_body) as [o|e] eqn:Ho.
  2: { destruct (only_order_of _ _ Ho) as [-> | ->]; auto. }
  destruct (missing_customer_information_defined (customer o)) as [[|] ->]; [auto|].
  destruct (no_items_defined (items o)) as [[|] ->]; [auto|].
  cbv zeta. destruct (compose _ _ _) as [[bm cm]|e] eqn:Hc.
  2: { destruct (only_compose _ _ _ _ Hc) as [-> | ->]; auto. }
  do 4 right. exists o, bm, cm. split; [reflexivity|]. split; [exact Hc|].
  destruct (sendMail w bm), (sendMail w cm); cbn [Promise_all]; eauto.
Qed.

End Outcomes2.

(** ** The reasons of a 400 *)

Section Refusals.
Context `{E : Engine}.

Lemma error_body_message (message : string) :
  match error_body message with
  | VObj m => m !! "error"
  | _ => None
  end = Some (VStr message).
Proof. unfold error_body. now rewrite lookup_singleton_eq. Qed.

Lemma error_body_inj (m1 m2 : string) : error_body m1 = error_body m2 -> m1 = m2.
Proof.
  intros H. pose proof (error_body_message m1) as H1.
  rewrite H, error_body_message in H1. congruence.
Qed.

(** The first rule, as a condition on the customer. *)
Lemma missing_customer_information_true (c : value) :
  missing_customer_information c = Ok true <->
  truthy c = false \/
  (exists n, get c "name" = Ok n /\ truthy n = false) \/
  (exists e, get c "email" = Ok e /\ truthy e = false).
Proof.
  unfold missing_customer_information. destruct (truthy c) eqn:Hc; cbn [negb].
  2: { split; auto. }
  destruct (get_truthy c "name" Hc) as [n Hn].
  destruct (get_truthy c "email" Hc) as [e He].
  rewrite Hn, He. cbv [mbind result_bind mret result_ret].
  destruct (truthy n) eqn:Htn; cbn [negb].
  - destruct (truthy e) eqn:Hte; cbn [negb]; split.
    + discriminate.
    + intros [H | [(n' & [= <-] & H) | (e' & [= <-] & H)]]; congruence.
    + eauto.
    + reflexivity.
  - split; [eauto | reflexivity].
Qed.

(** The second rule, as a condition on the items. *)
Lemma no_items_true (i : value) :
  no_items i = Ok true <-> truthy i = false \/ length_is_zero i = Ok true.
Proof.
  unfold no_items. destruct (truthy i) eqn:Hi; cbn [negb].
  - split; [auto | intros [H | H]; [discriminate | exact H]].
  - split; auto.
Qed.

(** X4. The handler answers with the 400 response of the first rule
    exactly when the customer, its name or its email is absent or
    falsy: no other payload gets this response. *)
Theorem missing_customer_info_only (user : option string) (w : World)
    (req_body c : value) :
  get req_body "customer" = Ok c ->
  response (handler user w req_body) = MissingCustomerInfo <->
  truthy c = false \/
  (exists n, get c "name" = Ok n /\ truthy n = false) \/
  (exists e, get c "email" = Ok e /\ truthy e = false).
Proof.
  intros Hc. rewrite <- missing_customer_information_true.
  destruct (order_of_defined _ _ Hc) as (o & Ho & <-).
  rewrite handler_stages, Ho.
  destruct (missing_customer_information_defined (customer o)) as [[|] ->];
    [split; reflexivity|].
  split; [|discriminate]. intros H. exfalso. revert H.
  destruct (no_items _) as [[|]|]; cbv zeta.
  - intros H. apply (f_equal json), error_body_inj in H. discriminate.
  - destruct (compose _ _ _) as [[bm cm]|]; [|discriminate].
    destruct (Promise_all _ _ _); discriminate.
  - discriminate.
Qed.

(** X5. The handler answers with the 400 response of the second rule
    exactly when the customer passes the first rule and the items are
    absent, falsy or of length zero. *)
Theorem empty_order_only (user : option string) (w : World)
    (req_body c i : value) :
  get req_body "customer" = Ok c ->
  get req_body "items" = Ok i ->
  response (handler user w req_body) = EmptyOrder <->
  missing_customer_information c = Ok false /\
  (truthy i = false \/ length_is_zero i = Ok true).
Proof.
  intros Hc Hi. rewrite <- no_items_true.
  destruct (order_of_defined _ _ Hc) as (o & Ho & <-).
  pose proof (order_of_items _ _ Ho) as Hi'.
  assert (items o = i) as <- by congruence.
  rewrite handler_stages, Ho.
  destruct (missing_customer_information_defined (customer o)) as [[|] ->].
  - split; [|intros [[=] _]].
    intros H. apply (f_equal json), error_body_inj in H. discriminate.
  - destruct (no_items_defined (items o)) as [[|] ->]; [split; auto|].
    split; [|intros [_ [=]]]. intros H. exfalso. revert H. cbv zeta.
    destruct (compose _ _ _) as [[bm cm]|]; [|discriminate].
    destruct (Promise_all _ _ _); discriminate.
Qed.

(** X6. Items that pass the second rule without being an array (a
    number, [true], a text that is not empty, an object) make
    [items.map] throw: the answer is the generic 500 failure and not
    a 400, the [TypeError] is logged and nothing is submitted. *)
Theorem items_not_an_array (user : option string) (w : World)
    (req_body c i : value) :
  get req_body "customer" = Ok c ->
  missing_customer_information c = Ok false ->
  get req_body "items" = Ok i ->
  no_items i = Ok false ->
  (forall elems, i <> VArr elems) ->
  handler user w req_body = failed TypeError [].
Proof.
  intros Hc Hm Hi Hn Ha.
  destruct (order_of_defined _ _ Hc) as (o & Ho & <-).
  pose proof (order_of_items _ _ Ho) as Hi'.
  assert (items o = i) as Hio by congruence.
  rewrite handler_stages, Ho, Hm, Hio, Hn. cbv zeta.
  assert (compose user o (orderNumber (Date_now w) (Math_random w)) = Throw TypeError)
    as ->; [|reflexivity].
  unfold compose, itemsList. rewrite Hio.
  destruct i; try reflexivity. now destruct (Ha elems).
Qed.

(** X7. When the transport delivers one of the two copies and rejects
    the other, both envelopes have been submitted, the answer is the
    generic failure and the reason of the rejected copy is logged: the
    failure of one submission neither stops nor undoes the other. *)
Theorem partial_delivery (user : option string) (w : World)
    (req_body : value) (o : Order) (bm cm : MailOptions) (reason : string) :
  validated req_body ->
  order_of req_body = Ok o ->
  compose user o (orderNumber (Date_now w) (Math_random w)) = Ok (bm, cm) ->
  sendMail w bm = Delivered /\ sendMail w cm = Rejected reason \/
  sendMail w bm = Rejected reason /\ sendMail w cm = Delivered ->
  handler user w req_body = failed (SendError reason) [bm; cm].
Proof.
  intros Hv Ho Hc Hs. destruct (validated_order _ Hv) as (o' & Ho' & Hm & Hn).
  assert (o' = o) as -> by congruence.
  rewrite handler_stages, Ho, Hm, Hn. cbv zeta. rewrite Hc.
  now destruct Hs as [[-> ->] | [-> ->]].
Qed.

End Refusals.

(** ** When two order numbers are the same *)

Lemma digit_of_upper_digit36 (d : nat) :
  d < 36 -> digit_of_upper (ascii_toUpperCase (digit36 d)) = d.
Proof.
  intros H. do 36 (destruct d as [|d]; [vm_compute; reflexivity|]). lia.
Qed.

Lemma digits_read_back (n : nat) (r : random_value) :
  base36 r ->
  map digit_of_upper (map ascii_toUpperCase (take n (map digit36 r))) = take n r.
Proof.
  intros Hr. revert n. induction Hr as [|d r Hd _ IH]; intros [|n]; try reflexivity.
  cbn [map take]. now rewrite digit_of_upper_digit36, IH.
Qed.

(** The digits a suffix was made of can be read back from it. *)
Lemma suffix_digits (r : random_value) :
  base36 r ->
  map digit_of_upper (list_ascii_of_string (suffix r)) = take 9 r.
Proof.
  intros Hr. unfold suffix.
  rewrite list_ascii_toUpperCase, substr_numeral, list_ascii_substring_0,
    list_ascii_of_string_of_list_ascii.
  now apply digits_read_back.
Qed.

Lemma take_map_digit36 (n : nat) (r : random_value) :
  take n (map digit36 r) = map digit36 (take n r).
Proof. revert n. induction r as [|d r IH]; intros [|n]; cbn; now rewrite ?IH. Qed.

Lemma upper_base36_not_dash (c : ascii) : upper_base36_char c = true -> c <> "-"%char.
Proof. intros H ->. vm_compute in H. discriminate. Qed.

Lemma suffix_dash_free (r : random_value) : base36 r -> dash_free (suffix r).
Proof.
  intros Hr. pose proof (suffix_chars r Hr) as H. unfold dash_free.
  rewrite forallb_forall in H. rewrite Forall_forall. intros c Hc.
  apply upper_base36_not_dash, H, list_elem_of_In, Hc.
Qed.

Lemma dash_in_middle (a b : string) :
  In "-"%char (list_ascii_of_string (a +:+ "-" +:+ b)).
Proof. induction a as [|c a IH]; [left; reflexivity | right; exact IH]. Qed.

Lemma dash_free_no_dash (a b s : string) : dash_free s -> s <> a +:+ "-" +:+ b.
Proof.
  intros Hs ->. unfold dash_free in Hs. rewrite Forall_forall in Hs.
  apply (Hs "-"%char); [|reflexivity]. apply list_elem_of_In, dash_in_middle.
Qed.

(** A text is split in one way at its last dash. *)
Lemma last_dash (x y s1 s2 : string) :
  dash_free s1 -> dash_free s2 ->
  x +:+ "-" +:+ s1 = y +:+ "-" +:+ s2 -> x = y /\ s1 = s2.
Proof.
  intros H1 H2. revert y. induction x as [|c x IH]; intros [|d y] H.
  - injection H as H. now split.
  - rewrite append_nil_l, !append_cons in H. injection H as _ H.
    now destruct (dash_free_no_dash y s2 s1 H1).
  - rewrite append_nil_l, !append_cons in H. injection H as _ H.
    symmetry in H. now destruct (dash_free_no_dash x s1 s2 H2).
  - rewrite !append_cons in H. injection H as -> H.
    destruct (IH y H) as [-> ->]. now split.
Qed.

Lemma orderNumber_parts (now : Z) (r : random_value) :
  orderNumber now r = "E3-" +:+ pretty now +:+ "-" +:+ suffix r.
Proof. unfold orderNumber, template. now rewrite append_nil_r. Qed.

(** X8. Two order numbers are the same exactly when they were
    generated in the same millisecond from random values whose base-36
    numerals agree on their first nine digits after the point: a
    different clock value always gives a different order number. *)
Theorem orderNumber_collision (now1 now2 : Z) (r1 r2 : random_value) :
  base36 r1 -> base36 r2 ->
  orderNumber now1 r1 = orderNumber now2 r2 <-> now1 = now2 /\ take 9 r1 = take 9 r2.
Proof.
  intros H1 H2. rewrite !orderNumber_parts. split.
  - intros H. apply (inj (String.app "E3-")) in H.
    apply last_dash in H as [Hn Hs]; auto using suffix_dash_free.
    split; [exact (inj pretty _ _ Hn)|].
    now rewrite <- (suffix_digits r1 H1), <- (suffix_digits r2 H2), Hs.
  - intros [-> Ht]. do 3 f_equal. unfold suffix.
    rewrite !substr_numeral. f_equal.
    assert (forall r, substring 0 9 (string_of_list_ascii (map digit36 r)) =
                      string_of_list_ascii (map digit36 (take 9 r))) as Hsub.
    { intros r. rewrite <- (string_of_list_ascii_of_string (substring 0 9 _)).
      now rewrite list_ascii_substring_0, list_ascii_of_string_of_list_ascii,
        take_map_digit36. }
    now rewrite !Hsub, Ht.
Qed.

(** ** What the bodies show *)

(** Equations between results that succeeded. *)
Ltac oks :=
  repeat match goal with
    | H : Ok _ = Ok _ |- _ => injection H as H; try subst
    end.

Section Bodies.
Context `{E : Engine}.

Lemma mapM_elem_of {B} (f : value -> result B) (l : list value) (ys : list B)
    (x : value) :
  mapM f l = Ok ys -> x ∈ l -> exists y, f x = Ok y /\ y ∈ ys.
Proof.
  revert ys. induction l as [|z l IH]; intros ys H Hx; [inversion Hx|].
  cbn [mapM] in H. binds H. injection H as <-.
  apply elem_of_cons in Hx as [-> | Hx].
  - eexists. split; [eassumption | left].
  - match goal with
    | H : mapM f l = Ok _ |- _ => destruct (IH _ H Hx) as (y & Hy & Hin)
    end.
    exists y. split; [exact Hy | now right].
Qed.

Lemma Infix_join (sep y : string) (ys : list string) :
  y ∈ ys -> Infix y (join sep ys).
Proof.
  unfold join. induction 1 as [y ys | y z ys Hin IH].
  - destruct ys; cbn [String.concat]; auto with infix.
  - destruct ys as [|w ys]; [inversion Hin|]. cbn [String.concat] in *.
    auto with infix.
Qed.

(** Three parts of a template that follow each other occur side by
    side in its text. *)
Lemma Infix_template_three (parts : list string) (i : nat) (x y z : string) :
  parts !! i = Some x -> parts !! S i = Some y -> parts !! S (S i) = Some z ->
  Infix (x +:+ y +:+ z) (template parts).
Proof.
  revert i. induction parts as [|p parts IH]; intros i; [discriminate|].
  destruct i as [|i]; cbn [lookup list_lookup].
  - intros [= ->]. destruct parts as [|q [|q' parts]]; try discriminate.
    intros [= ->] [= ->]. unfold template; fold template.
    exists EmptyString, (template parts). now rewrite append_nil_l, !append_assoc.
  - intros Hx Hy Hz. unfold template; fold template.
    apply Infix_append_r. now apply (IH i).
Qed.

(** A value between the end of one literal part and the start of the
    next. *)
Lemma Infix_between (a b before opening closing after s : string) :
  a = before +:+ opening -> b = closing +:+ after ->
  Infix (opening +:+ s +:+ closing) (a +:+ s +:+ b).
Proof.
  intros -> ->. exists before, after. now rewrite !append_assoc.
Qed.

Lemma ends_with (a label : string) :
  substring 0 (String.length a - String.length label) a +:+ label = a ->
  exists before, a = before +:+ label.
Proof. intros H. eexists. symmetry. exact H. Qed.

Lemma starts_with (b label : string) :
  label +:+ substring (String.length label) (String.length b) b = b ->
  exists after, b = label +:+ after.
Proof. intros H. eexists. symmetry. exact H. Qed.

Lemma print_text (v : value) (k s : string) :
  get v k = Ok (VStr s) -> print v k = Ok s.
Proof. intros H. unfold print. now rewrite H. Qed.

(** The first rule passed: the customer has a truthy name and a truthy
    email. *)
Lemma missing_customer_information_false (c : value) :
  missing_customer_information c = Ok false ->
  exists n e, get c "name" = Ok n /\ truthy n = true /\
              get c "email" = Ok e /\ truthy e = true.
Proof.
  unfold missing_customer_information. destruct (truthy c) eqn:Hc; [|discriminate].
  cbn [negb]. intros H. binds H.
  destruct (truthy a) eqn:Ha; [|discriminate]. cbn [negb] in H. binds H.
  injection H as H. apply negb_false_iff in H. eauto 10.
Qed.

(** X9. Every element of the list of items has its line in both
    plain-text bodies and its row in both rich-text bodies: no item of
    the order is left out of a message. *)
Theorem every_item_shown (user : option string) (o : Order) (n : string)
    (bm cm : MailOptions) (elems : list value) (item : value) :
  compose user o n = Ok (bm, cm) ->
  items o = VArr elems ->
  item ∈ elems ->
  exists line brow crow,
    item_line item = Ok line /\
    item_row business_html_row_0 business_html_row_1 business_html_row_2
      business_html_row_3 business_html_row_4 item = Ok brow /\
    item_row customer_html_row_0 customer_html_row_1 customer_html_row_2
      customer_html_row_3 customer_html_row_4 item = Ok crow /\
    Infix line (mail_text bm) /\ Infix line (mail_text cm) /\
    Infix brow (mail_html bm) /\ Infix crow (mail_html cm).
Proof.
  unfold compose. intros H Hi Hx. binds H. injection H as <- <-.
  repeat match goal with
    | H : itemsList _ = Ok _ |- _ => unfold itemsList in H; binds H; injection H as <-
    | H : businessEmailOptions _ _ _ _ = Ok _ |- _ =>
        unfold businessEmailOptions in H; binds H; injection H as <-
    | H : customerEmailOptions _ _ _ _ = Ok _ |- _ =>
        unfold customerEmailOptions in H; binds H; injection H as <-
    | H : business_text _ _ _ = Ok _ |- _ =>
        unfold business_text in H; binds H; injection H as <-
    | H : business_html _ _ = Ok _ |- _ =>
        unfold business_html in H; binds H; injection H as <-
    | H : customer_text _ _ _ = Ok _ |- _ =>
        unfold customer_text in H; binds H; injection H as <-
    | H : customer_html _ _ = Ok _ |- _ =>
        unfold customer_html in H; binds H; injection H as <-
    end.
  rewrite Hi in *. cbn [array_map] in *.
  repeat match goal with
    | H : mapM _ elems = Ok _ |- _ =>
        let y := fresh "y" in let Hy := fresh "Hy" in let Hin := fresh "Hin" in
        destruct (mapM_elem_of _ _ _ _ H Hx) as (y & Hy & Hin); clear H
    end.
  cbn [mail_text mail_html].
  do 3 eexists. repeat (split; [eassumption|]).
  repeat split; (eapply Infix_trans; [eapply Infix_join; eassumption | part]).
Qed.

(** X10. A name and special instructions that are texts go into the
    rich-text bodies as they are, between the markup of the template:
    nothing is escaped. *)
Theorem texts_not_escaped (user : option string) (o : Order) (n : string)
    (bm cm : MailOptions) (name : string) :
  compose user o n = Ok (bm, cm) ->
  get (customer o) "name" = Ok (VStr name) ->
  Infix ("<p><strong>Name:</strong> " +:+ name +:+ "</p>") (mail_html bm) /\
  Infix ("<p>Hi " +:+ name +:+ ",</p>") (mail_html cm) /\
  forall instructions,
    get (customer o) "specialInstructions" = Ok (VStr instructions) ->
    instructions <> EmptyString ->
    Infix ("<p>" +:+ instructions +:+ "</p>") (mail_html bm).
Proof.
  unfold compose. intros H Hn. apply print_text in Hn. binds H. injection H as <- <-.
  repeat match goal with
    | H : businessEmailOptions _ _ _ _ = Ok _ |- _ =>
        unfold businessEmailOptions in H; binds H; injection H as <-
    | H : customerEmailOptions _ _ _ _ = Ok _ |- _ =>
        unfold customerEmailOptions in H; binds H; injection H as <-
    | H : business_html _ _ = Ok _ |- _ =>
        unfold business_html in H; binds H; injection H as <-
    | H : customer_html _ _ = Ok _ |- _ =>
        unfold customer_html in H; binds H; injection H as <-
    end.
  oks. cbn [mail_html]. split; [|split].
  - destruct (ends_with business_html_3 "<p><strong>Name:</strong> " eq_refl) as [p Hp].
    destruct (starts_with business_html_4 "</p>" eq_refl) as [q Hq].
    eapply Infix_trans; [exact (Infix_between _ _ _ _ _ _ name Hp Hq)|].
    eapply (Infix_template_three _ 6); reflexivity.
  - destruct (ends_with customer_html_1 "<p>Hi " eq_refl) as [p Hp].
    destruct (starts_with customer_html_2 ",</p>" eq_refl) as [q Hq].
    eapply Infix_trans; [exact (Infix_between _ _ _ _ _ _ name Hp Hq)|].
    eapply (Infix_template_three _ 2); reflexivity.
  - intros t Ht Hne.
    match goal with
    | H : print_if (customer o) "specialInstructions" _ _ = Ok _ |- _ =>
        unfold print_if in H; rewrite Ht in H;
        cbv [mbind result_bind mret result_ret] in H;
        cbn [truthy ToString ToString_within] in H
    end.
    destruct (String.eqb_spec t EmptyString) as [|_]; [contradiction|].
    cbn [negb] in *.
    match goal with H : Ok _ = Ok _ |- _ => injection H as <- end.
    destruct (ends_with business_html_specialInstructions_0 "<p>" eq_refl) as [p Hp].
    destruct (starts_with business_html_specialInstructions_1 "</p>" eq_refl) as [q Hq].
    eapply Infix_trans; [exact (Infix_between _ _ _ _ _ _ t Hp Hq)|].
    eapply Infix_trans;
      [apply (Infix_template_three
                [business_html_specialInstructions_0; t;
                 business_html_specialInstructions_1] 0); reflexivity|].
    part.
Qed.

(** X11. For a validated order the customer copy is addressed to the
    email of the customer, which is truthy, and its plain text always
    has the sentence about the proof: the empty alternative of line
    178 is never taken. *)
Theorem proof_sentence_always (user : option string) (req_body : value)
    (o : Order) (n : string) (bm cm : MailOptions) :
  validated req_body ->
  order_of req_body = Ok o ->
  compose user o n = Ok (bm, cm) ->
  get (customer o) "email" = Ok (mail_to cm) /\
  truthy (mail_to cm) = true /\
  Infix ("shortly. A proof will be provided to your email if applicable." +:+ nl)
    (mail_text cm).
Proof.
  intros Hv Ho. destruct (validated_order _ Hv) as (o' & Ho' & Hm & _).
  assert (o' = o) as -> by congruence.
  destruct (missing_customer_information_false _ Hm) as (nm & e & _ & _ & He & Hte).
  unfold compose. intros H. binds H. injection H as <- <-.
  repeat match goal with
    | H : customerEmailOptions _ _ _ _ = Ok _ |- _ =>
        unfold customerEmailOptions in H; binds H; injection H as <-
    | H : customer_text _ _ _ = Ok _ |- _ =>
        unfold customer_text in H; binds H; injection H as <-
    end.
  oks. cbn [mail_to mail_text]. rewrite Hte.
  split; [reflexivity|]. split; [reflexivity|].
  destruct (ends_with customer_text_4 "shortly. " eq_refl) as [p Hp].
  destruct (starts_with customer_text_5 nl eq_refl) as [q Hq].
  eapply Infix_trans;
    [exact (Infix_between _ _ _ _ _ _
              "A proof will be provided to your email if applicable." Hp Hq)|].
  eapply (Infix_template_three _ 8); reflexivity.
Qed.

(** X12. The envelopes take their sender from [EMAIL_USER] without the
    fallback that the credentials of the transport have (line 26
    against lines 59 and 164): the sender of both is the user the
    transport authenticates as exactly when [EMAIL_USER] is set and
    not empty. *)
Theorem sender_is_auth_user (user : option string) (o : Order) (n : string)
    (bm cm : MailOptions) :
  compose user o n = Ok (bm, cm) ->
  mail_from bm = mail_from cm /\
  (mail_from bm = VStr (transporter_auth_user user) <->
   exists s, user = Some s /\ s <> EmptyString).
Proof.
  unfold compose. intros H. binds H. injection H as <- <-.
  repeat match goal with
    | H : businessEmailOptions _ _ _ _ = Ok _ |- _ =>
        unfold businessEmailOptions in H; binds H; injection H as <-
    | H : customerEmailOptions _ _ _ _ = Ok _ |- _ =>
        unfold customerEmailOptions in H; binds H; injection H as <-
    end.
  cbn [mail_from]. split; [reflexivity|].
  unfold transporter_auth_user, env_or, process_env. destruct user as [s|].
  - destruct (String.eqb_spec s EmptyString) as [->|Hne].
    + split; [discriminate | intros (s & [= <-] & H); contradiction].
    + split; eauto.
  - split; [discriminate | intros (s & [=] & _)].
Qed.

(** X14. The four bodies show the declared total of the payload,
    formatted by [toFixed(2)], after their label: the total is taken
    from the payload as it is and is not computed from the items. *)
Theorem declared_total_shown (user : option string) (o : Order) (n : string)
    (bm cm : MailOptions) :
  compose user o n = Ok (bm, cm) ->
  exists amount,
    toFixed2 (total o) = Ok amount /\
    Infix ("TOTAL: $" +:+ amount +:+ nl) (mail_text bm) /\
    Infix ("TOTAL: $" +:+ amount +:+ "</div>") (mail_html bm) /\
    Infix ("Total: $" +:+ amount +:+ nl) (mail_text cm) /\
    Infix ("TOTAL: $" +:+ amount +:+ "</div>") (mail_html cm).
Proof.
  unfold compose. intros H. binds H. injection H as <- <-.
  repeat match goal with
    | H : businessEmailOptions _ _ _ _ = Ok _ |- _ =>
        unfold businessEmailOptions in H; binds H; injection H as <-
    | H : customerEmailOptions _ _ _ _ = Ok _ |- _ =>
        unfold customerEmailOptions in H; binds H; injection H as <-
    | H : business_text _ _ _ = Ok _ |- _ =>
        unfold business_text in H; binds H; injection H as <-
    | H : business_html _ _ = Ok _ |- _ =>
        unfold business_html in H; binds H; injection H as <-
    | H : customer_text _ _ _ = Ok _ |- _ =>
        unfold customer_text in H; binds H; injection H as <-
    | H : customer_html _ _ = Ok _ |- _ =>
        unfold customer_html in H; binds H; injection H as <-
    end.
  oks. cbn [mail_text mail_html]. eexists. split; [reflexivity|].
  repeat split.
  - destruct (ends_with business_text_8 "TOTAL: $" eq_refl) as [p Hp].
    destruct (starts_with business_text_9 nl eq_refl) as [q Hq].
    eapply Infix_trans; [exact (Infix_between _ _ _ _ _ _ _ Hp Hq)|].
    eapply (Infix_template_three _ 16); reflexivity.
  - destruct (ends_with business_html_8 "TOTAL: $" eq_refl) as [p Hp].
    destruct (starts_with business_html_9 "</div>" eq_refl) as [q Hq].
    eapply Infix_trans; [exact (Infix_between _ _ _ _ _ _ _ Hp Hq)|].
    eapply (Infix_template_three _ 16); reflexivity.
  - destruct (ends_with customer_text_3 "Total: $" eq_refl) as [p Hp].
    destruct (starts_with customer_text_4 nl eq_refl) as [q Hq].
    eapply Infix_trans; [exact (Infix_between _ _ _ _ _ _ _ Hp Hq)|].
    eapply (Infix_template_three _ 6); reflexivity.
  - destruct (ends_with customer_html_3 "TOTAL: $" eq_refl) as [p Hp].
    destruct (starts_with customer_html_4 "</div>" eq_refl) as [q Hq].
    eapply Infix_trans; [exact (Infix_between _ _ _ _ _ _ _ Hp Hq)|].
    eapply (Infix_template_three _ 6); reflexivity.
Qed.

End Bodies.

(** ** The two routes *)

Section RoutesFacts.
Context `{E : Engine}.


End RoutesFacts.

(** * The theorems at the order of the scenario *)

Module examples.
Import example.

(** The payload of the scenario passes both rules of the validator. *)
Lemma payload_validated : validated payload.
Proof. exists jane, (VArr [sticker]). repeat split. Defined.

(** The variables the handler binds from it. *)
Lemma payload_order : order_of payload = Ok order.
Proof. reflexivity. Defined.

(** The envelopes of the payload, in any world that yields its order
    number. *)
Lemma payload_composed (w : World) :
  Date_now w = 1700000000000%Z ->
  suffix (Math_random w) = "I3Z07CT1K" ->
  compose None order (orderNumber (Date_now w) (Math_random w)) =
    Ok (business_mail, customer_mail).
Proof. unfold orderNumber. intros -> ->. reflexivity. Defined.

(** The customer copy bounces: the answer is the generic failure. *)
Lemma dispatch_failure_is_generic_witness :
  validated payload /\
  (forall o bm cm,
     order_of payload = Ok o ->
     compose None o (orderNumber (Date_now world_bounce) (Math_random world_bounce))
       = Ok (bm, cm) ->
     sendMail world_bounce bm <> Delivered \/ sendMail world_bounce cm <> Delivered) /\
  response (handler None world_bounce payload) =
    {| status := 500;
       json := error_body
         "Failed to submit order. Please try again or contact us directly." |} /\
  forall n, response (handler None world_bounce payload) <> success n.
Proof.
  assert (forall o bm cm,
     order_of payload = Ok o ->
     compose None o (orderNumber (Date_now world_bounce) (Math_random world_bounce))
       = Ok (bm, cm) ->
     sendMail world_bounce bm <> Delivered \/ sendMail world_bounce cm <> Delivered)
    as Hsend.
  { intros o bm cm Ho Hc. rewrite payload_order in Ho. injection Ho as <-.
    rewrite (payload_composed world_bounce eq_refl eq_refl) in Hc.
    injection Hc as <- <-. right. discriminate. }
  split; [exact payload_validated|]. split; [exact Hsend|].
  exact (dispatch_failure_is_generic None world_bounce payload payload_validated Hsend).
Defined.

(** The customer of the scenario has no phone; with a phone, the rich
    text has the markup of the phone where the two texts meet. *)
Lemma optional_field_rendering_witness :
  business_text order order_number lines = Ok text /\
  business_html order order_number = Ok html /\
  get (customer order) (field_key phone) = Ok VUndefined /\
  Infix (text_label phone +:+ absence_marker phone) text /\
  (exists pre post, html = pre +:+ post /\
     business_html order_with_phone order_number =
       Ok (pre +:+ html_before phone +:+ "269-555-0100" +:+ html_after phone +:+ post)) /\
  business_text (without phone order) order_number lines = Ok text /\
  business_html (without phone order) order_number = Ok html.
Proof.
  assert (business_text order order_number lines = Ok text) as Ht by reflexivity.
  assert (business_html order order_number = Ok html) as Hh by reflexivity.
  assert (get (customer order) (field_key phone) = Ok VUndefined) as Hg by reflexivity.
  assert (same_but phone order order_with_phone) as Hsame.
  { repeat split. intros k Hk.
    unfold order_with_phone, order, jane_with_phone, jane, object.
    cbn [customer get]. rewrite list_to_map_cons. cbn [fst snd].
    now rewrite lookup_insert_ne by (intros H; apply Hk; symmetry; exact H). }
  destruct (optional_field_rendering order order_number lines text html phone
              VUndefined Ht Hh Hg) as (Hmarker & (pre & post & Hpp & Hall) & Hwt & Hwh).
  split; [exact Ht|]. split; [exact Hh|]. split; [exact Hg|]. split; [exact Hmarker|].
  split; [|split; [exact Hwt | exact Hwh]].
  exists pre, post. split; [exact Hpp|].
  exact (Hall order_with_phone (VStr "269-555-0100") "269-555-0100" Hsame
           eq_refl eq_refl eq_refl).
Defined.

(** A payload with items and no customer. *)
Lemma missing_customer_info_rejected_witness :
  get payload_no_customer "customer" = Ok VUndefined /\
  truthy VUndefined = false /\
  handler None world_ok payload_no_customer =
    {| response := {| status := 400;
                      json := error_body "Missing required customer information" |};
       submitted := [];
       console_error := [] |}.
Proof.
  split; [reflexivity|]. split; [reflexivity|].
  exact (missing_customer_info_rejected None world_ok payload_no_customer VUndefined
           eq_refl (or_introl eq_refl)).
Defined.

(** C5, as the spec states it, fails on a request whose body was not
    parsed ([req.body] is [undefined]): there is no customer in it, the
    destructuring throws, and the answer is the generic failure with
    the exception logged, not the 400 of the first rule. *)
Lemma unparsed_body_is_generic_failure :
  get VUndefined "customer" = Throw TypeError /\
  handler None world_ok VUndefined =
    {| response :=
         {| status := 500;
            json := error_body
              "Failed to submit order. Please try again or contact us directly." |};
       submitted := [];
       console_error := [TypeError] |} /\
  response (handler None world_ok VUndefined) <> MissingCustomerInfo.
Proof.
  split; [reflexivity|]. split; [reflexivity|]. discriminate.
Qed.

(** A payload with a customer and an empty list of items. *)
Lemma empty_order_rejected_witness :
  get payload_no_items "customer" = Ok jane /\
  missing_customer_information jane = Ok false /\
  get payload_no_items "items" = Ok (VArr []) /\
  length_is_zero (VArr []) = Ok true /\
  handler None world_ok payload_no_items =
    {| response := {| status := 400; json := error_body "No items in order" |};
       submitted := [];
       console_error := [] |}.
Proof.
  repeat (split; [reflexivity|]).
  exact (empty_order_rejected None world_ok payload_no_items jane (VArr [])
           eq_refl eq_refl eq_refl (or_intror eq_refl)).
Defined.

(** Both copies are delivered: the success response of the scenario. *)
Lemma both_delivered_success_witness :
  validated payload /\
  order_of payload = Ok order /\
  compose None order (orderNumber (Date_now world_ok) (Math_random world_ok)) =
    Ok (business_mail, customer_mail) /\
  sendMail world_ok business_mail = Delivered /\
  sendMail world_ok customer_mail = Delivered /\
  handler None world_ok payload =
    {| response :=
         {| status := 200;
            json := VObj (<[ "success" := VBool true ]>
                         (<[ "orderNumber" := VStr "E3-1700000000000-I3Z07CT1K" ]>
                         {[ "message" := VStr "Order submitted successfully" ]})) |};
       submitted := [business_mail; customer_mail];
       console_error := [] |}.
Proof.
  split; [exact payload_validated|]. split; [exact payload_order|].
  split; [exact (payload_composed world_ok eq_refl eq_refl)|].
  split; [reflexivity|]. split; [reflexivity|].
  exact (both_delivered_success None world_ok payload order business_mail
           customer_mail payload_validated payload_order
           (payload_composed world_ok eq_refl eq_refl) eq_refl eq_refl).
Defined.

(** The order number of the scenario in its response and messages. *)
Lemma single_order_number_witness :
  response (handler None world_ok payload) = success order_number /\
  order_number = orderNumber (Date_now world_ok) (Math_random world_ok) /\
  exists bm cm,
    submitted (handler None world_ok payload) = [bm; cm] /\
    Infix order_number (mail_subject bm) /\ Infix order_number (mail_text bm) /\
    Infix order_number (mail_html bm) /\
    Infix order_number (mail_subject cm) /\ Infix order_number (mail_text cm) /\
    Infix order_number (mail_html cm).
Proof.
  assert (response (handler None world_ok payload) = success order_number) as H
    by reflexivity.
  split; [exact H|].
  exact (single_order_number None world_ok payload order_number H).
Defined.

(** Seven attempts of one client in one window, among the requests of
    another client: the fifth is handled, the sixth is rejected. *)
Lemma sixth_attempt_rejected_witness :
  filter (fun r => ip r = "203.0.113.7") traffic =
    request 1000 :: [request 2000; request 3000; request 4000; request 5000;
                     request 899999; request 900999] /\
  limiter.open ∅ "203.0.113.7" (arrival (request 1000)) = false /\
  Forall (fun r => (arrival r < arrival (request 1000) + limiter.windowMs)%Z)
    [request 2000; request 3000; request 4000; request 5000;
     request 899999; request 900999] /\
  attempts_of "203.0.113.7" (serve None ∅ traffic) !! 4 =
    Some (request 5000, handler None world_ok payload) /\
  attempts_of "203.0.113.7" (serve None ∅ traffic) !! 5 =
    Some (request 899999,
          {| response :=
               {| status := 429;
                  json := error_body
                    "Too many orders submitted, please try again later." |};
             submitted := [];
             console_error := [] |}).
Proof.
  assert (filter (fun r => ip r = "203.0.113.7") traffic =
    request 1000 :: [request 2000; request 3000; request 4000; request 5000;
                     request 899999; request 900999]) as Hf by reflexivity.
  assert (Forall (fun r => (arrival r < arrival (request 1000) + limiter.windowMs)%Z)
    [request 2000; request 3000; request 4000; request 5000;
     request 899999; request 900999]) as Hw by (repeat constructor).
  split; [exact Hf|]. split; [reflexivity|]. split; [exact Hw|]. split.
  - exact (sixth_attempt_rejected None ∅ "203.0.113.7" traffic _ _ Hf eq_refl Hw
             4 (request 5000) eq_refl).
  - exact (sixth_attempt_rejected None ∅ "203.0.113.7" traffic _ _ Hf eq_refl Hw
             5 (request 899999) eq_refl).
Defined.

(** C1, as the spec states it, fails on a validated payload whose item
    has no price: the composer throws, and the handler answers with
    the generic failure. *)
Lemma unpriced_item_breaks_composer :
  validated payload_unpriced /\
  exists o, order_of payload_unpriced = Ok o /\
    well_formed_order o = false /\
    compose None o order_number = Throw TypeError /\
    handler None world_ok payload_unpriced = failed TypeError [].
Proof.
  split.
  - exists jane, (VArr [unpriced]). repeat split.
  - eexists. split; [reflexivity|]. repeat split.
Qed.

(** A validated payload whose customer name is nested deeper than the
    stack of the engine of the examples has room for: the order is not
    well formed, the conversion of the name overflows the stack, and
    the handler answers with the generic failure, nothing submitted. *)
Lemma deep_name_overflows :
  validated payload_deep /\
  exists o, order_of payload_deep = Ok o /\
    well_formed_order o = false /\
    compose None o order_number = Throw RangeError /\
    handler None world_ok payload_deep = failed RangeError [].
Proof.
  split.
  - eexists _, _. repeat split.
  - eexists. split; [reflexivity|]. repeat split.
Qed.

(** The order of the scenario is well formed, and composed. *)
Lemma composer_total_on_well_formed_witness :
  validated payload /\
  order_of payload = Ok order /\
  well_formed_order order = true /\
  exists bm cm,
    compose None order (orderNumber (Date_now world_ok) (Math_random world_ok)) =
      Ok (bm, cm) /\
    submitted (handler None world_ok payload) = [bm; cm].
Proof.
  split; [exact payload_validated|]. split; [exact payload_order|].
  split; [reflexivity|].
  exact (composer_total_on_well_formed None world_ok payload order
           payload_validated payload_order).
Defined.

(** A random value with eleven digits after the point. *)
Lemma suffix_well_formed_witness :
  base36 (Math_random world_ok) /\
  well_formed_suffix (suffix (Math_random world_ok)) = true.
Proof.
  assert (base36 (Math_random world_ok)) as H by (repeat constructor; lia).
  split; [exact H|]. exact (suffix_well_formed (Math_random world_ok) H).
Defined.


(** The envelopes of the scenario: recipients and business subject. *)
Lemma envelope_contract_witness :
  compose None order order_number = Ok (business_mail, customer_mail) /\
  mail_to business_mail = VStr "imageinboxe3@gmail.com" /\
  mail_to customer_mail = VStr "jane@example.com" /\
  Infix " from Jane Doe" (mail_subject business_mail) /\
  Infix " - $7.00" (mail_subject business_mail).
Proof.
  assert (compose None order order_number = Ok (business_mail, customer_mail)) as Hc
    by reflexivity.
  destruct (envelope_contract None order order_number business_mail customer_mail Hc)
    as (Hb & _ & _ & _ & name & total & Hn & Ht & Hin & Hit).
  injection Hn as <-. injection Ht as <-.
  split; [exact Hc|]. split; [exact Hb|]. split; [reflexivity|].
  split; [exact Hin | exact Hit].
Defined.

End examples.

(** * The further theorems at the order of the scenario *)

Module more_examples.
Import example scenario.

(** A payload with items and no customer gets the first 400. *)
Lemma missing_customer_info_only_witness :
  get payload_no_customer "customer" = Ok VUndefined /\
  (response (handler None world_ok payload_no_customer) = MissingCustomerInfo <->
   truthy VUndefined = false \/
   (exists n, get VUndefined "name" = Ok n /\ truthy n = false) \/
   (exists e, get VUndefined "email" = Ok e /\ truthy e = false)).
Proof.
  split; [reflexivity|].
  exact (missing_customer_info_only None world_ok payload_no_customer VUndefined eq_refl).
Defined.

(** A payload with a customer and an empty list gets the second. *)
Lemma empty_order_only_witness :
  get payload_no_items "customer" = Ok jane /\
  get payload_no_items "items" = Ok (VArr []) /\
  (response (handler None world_ok payload_no_items) = EmptyOrder <->
   missing_customer_information jane = Ok false /\
   (truthy (VArr []) = false \/ length_is_zero (VArr []) = Ok true)).
Proof.
  split; [reflexivity|]. split; [reflexivity|].
  exact (empty_order_only None world_ok payload_no_items jane (VArr []) eq_refl eq_refl).
Defined.

(** Items that are a text pass the validator and end in the 500. *)
Lemma items_not_an_array_witness :
  get payload_text_items "customer" = Ok jane /\
  missing_customer_information jane = Ok false /\
  get payload_text_items "items" = Ok (VStr "two stickers") /\
  no_items (VStr "two stickers") = Ok false /\
  (forall elems, VStr "two stickers" <> VArr elems) /\
  handler None world_ok payload_text_items = failed TypeError [].
Proof.
  assert (forall elems, VStr "two stickers" <> VArr elems) as Ha by discriminate.
  do 4 (split; [reflexivity|]). split; [exact Ha|].
  exact (items_not_an_array None world_ok payload_text_items jane
           (VStr "two stickers") eq_refl eq_refl eq_refl eq_refl Ha).
Defined.

(** The business copy is delivered, the customer copy bounces. *)
Lemma partial_delivery_witness :
  validated payload /\
  order_of payload = Ok order /\
  compose None order (orderNumber (Date_now world_bounce) (Math_random world_bounce)) =
    Ok (business_mail, customer_mail) /\
  sendMail world_bounce business_mail = Delivered /\
  sendMail world_bounce customer_mail = Rejected "550 mailbox unavailable" /\
  handler None world_bounce payload =
    failed (SendError "550 mailbox unavailable") [business_mail; customer_mail].
Proof.
  split; [exact examples.payload_validated|]. split; [exact examples.payload_order|].
  split; [exact (examples.payload_composed world_bounce eq_refl eq_refl)|].
  split; [reflexivity|]. split; [reflexivity|].
  exact (partial_delivery None world_bounce payload order business_mail customer_mail
           "550 mailbox unavailable" examples.payload_validated examples.payload_order
           (examples.payload_composed world_bounce eq_refl eq_refl)
           (or_introl (conj eq_refl eq_refl))).
Defined.

(** Two random values that agree on nine digits, in one millisecond. *)
Lemma orderNumber_collision_witness :
  base36 (Math_random world_ok) /\
  base36 (Math_random world_other) /\
  Math_random world_ok <> Math_random world_other /\
  (orderNumber 1700000000000 (Math_random world_ok) =
     orderNumber 1700000000000 (Math_random world_other) <->
   1700000000000%Z = 1700000000000%Z /\
   take 9 (Math_random world_ok) = take 9 (Math_random world_other)).
Proof.
  assert (base36 (Math_random world_ok)) as H1 by (repeat constructor; lia).
  assert (base36 (Math_random world_other)) as H2 by (repeat constructor; lia).
  split; [exact H1|]. split; [exact H2|]. split; [discriminate|].
  exact (orderNumber_collision 1700000000000 1700000000000 _ _ H1 H2).
Defined.

(** The one item of the scenario in the four bodies. *)
Lemma every_item_shown_witness :
  compose None order order_number = Ok (business_mail, customer_mail) /\
  items order = VArr [sticker] /\
  sticker ∈ [sticker] /\
  item_line sticker = Ok "2x Sticker @ $3.50 = $7.00" /\
  Infix "2x Sticker @ $3.50 = $7.00" (mail_text business_mail) /\
  Infix "2x Sticker @ $3.50 = $7.00" (mail_text customer_mail).
Proof.
  assert (compose None order order_number = Ok (business_mail, customer_mail)) as Hc
    by reflexivity.
  assert (sticker ∈ [sticker]) as Hin by left.
  destruct (every_item_shown None order order_number business_mail customer_mail
              [sticker] sticker Hc eq_refl Hin)
    as (line & brow & crow & Hl & _ & _ & Hb & Hcm & _ & _).
  injection Hl as <-.
  split; [exact Hc|]. do 3 (split; [reflexivity || exact Hin|]).
  split; [exact Hb | exact Hcm].
Defined.

(** The name of the customer of the scenario in the rich texts. *)
Lemma texts_not_escaped_witness :
  compose None order order_number = Ok (business_mail, customer_mail) /\
  get (customer order) "name" = Ok (VStr "Jane Doe") /\
  Infix "<p><strong>Name:</strong> Jane Doe</p>" (mail_html business_mail) /\
  Infix "<p>Hi Jane Doe,</p>" (mail_html customer_mail).
Proof.
  assert (compose None order order_number = Ok (business_mail, customer_mail)) as Hc
    by reflexivity.
  destruct (texts_not_escaped None order order_number business_mail customer_mail
              "Jane Doe" Hc eq_refl) as (Hb & Hcm & _).
  split; [exact Hc|]. split; [reflexivity|]. split; [exact Hb | exact Hcm].
Defined.

(** The customer copy of the scenario. *)
Lemma proof_sentence_always_witness :
  validated payload /\
  order_of payload = Ok order /\
  compose None order order_number = Ok (business_mail, customer_mail) /\
  get (customer order) "email" = Ok (mail_to customer_mail) /\
  truthy (mail_to customer_mail) = true /\
  Infix ("shortly. A proof will be provided to your email if applicable." +:+ nl)
    (mail_text customer_mail).
Proof.
  assert (compose None order order_number = Ok (business_mail, customer_mail)) as Hc
    by reflexivity.
  split; [exact examples.payload_validated|]. split; [exact examples.payload_order|].
  split; [exact Hc|].
  exact (proof_sentence_always None payload order order_number business_mail
           customer_mail examples.payload_validated examples.payload_order Hc).
Defined.

(** No [EMAIL_USER]: the transport authenticates as the fallback and
    the envelopes have no sender. *)
Lemma sender_is_auth_user_witness :
  compose None order order_number = Ok (business_mail, customer_mail) /\
  transporter_auth_user None = "imageinboxe3@gmail.com" /\
  mail_from business_mail = VUndefined /\
  mail_from business_mail = mail_from customer_mail /\
  (mail_from business_mail = VStr (transporter_auth_user None) <->
   exists s, None = Some s /\ s <> EmptyString).
Proof.
  assert (compose None order order_number = Ok (business_mail, customer_mail)) as Hc
    by reflexivity.
  split; [exact Hc|]. split; [reflexivity|]. split; [reflexivity|].
  exact (sender_is_auth_user None order order_number business_mail customer_mail Hc).
Defined.

(** The total of the scenario in the four bodies. *)
Lemma declared_total_shown_witness :
  compose None order order_number = Ok (business_mail, customer_mail) /\
  Infix ("TOTAL: $7.00" +:+ nl) (mail_text business_mail) /\
  Infix "TOTAL: $7.00</div>" (mail_html business_mail) /\
  Infix ("Total: $7.00" +:+ nl) (mail_text customer_mail) /\
  Infix "TOTAL: $7.00</div>" (mail_html customer_mail).
Proof.
  assert (compose None order order_number = Ok (business_mail, customer_mail)) as Hc
    by reflexivity.
  destruct (declared_total_shown None order order_number business_mail customer_mail Hc)
    as (amount & Ha & H1 & H2 & H3 & H4).
  injection Ha as <-.
  split; [exact Hc|].
  split; [exact H1|]. split; [exact H2|]. split; [exact H3 | exact H4].
Defined.

End more_examples.
